(** * Document parsers: models, format parsers and the universal dispatcher

    Shallow embedding of [src/parsers] (models.py, base_parser.py,
    excel_parser.py, pdf_parser.py, word_parser.py, text_parser.py,
    universal_parser.py).

    Conventions of the embedding:
    - a Python [str] is a [string]; one character stands for one code point
      (code points above 255 are outside the model);
    - a Python [int] is a [Z];
    - a call that may raise returns a [result]; only instances of
      [Exception] are modelled (what [except Exception] and a bare
      [except] both catch here);
    - the file system and the third-party libraries (polars, openpyxl,
      pdfplumber, pypdf) are read through the fields of a [World], which
      does not change during a call; [Path.resolve], [Path.exists],
      [Path.is_file] and [Path.stat] are taken to return: the errors these
      calls raise themselves (a NUL in the path, a name that is too long)
      are outside the model;
    - [logger] calls do not influence any returned value and are left out. *)

From Stdlib Require Import String Ascii ZArith.
From Stdlib Require OrderedTypeEx Sorted.
From stdpp Require Import base option list strings gmap pretty.

Local Open Scope string_scope.
Local Open Scope Z_scope.

(** ** Python values, exceptions and results *)

Module Py.

(** Scalar values found in the cells the libraries hand back. A float is
    kept as the text [str] gives for it. *)
Inductive scalar :=
  | SNone
  | SBool (b : bool)
  | SInt (z : Z)
  | SFloat (repr : string)
  | SStr (s : string).

(** Values stored in a metadata dict: ints, strings, the list of column
    names, and scalars passed on from a library. *)
Inductive value :=
  | VInt (z : Z)
  | VStr (s : string)
  | VNames (l : list string)
  | VScalar (c : scalar).

(** Instances of [Exception], by class, with their [str]. *)
Inductive exc :=
  | ValueError (msg : string)
  | UnicodeDecodeError (msg : string)
  | AttributeError (msg : string)
  | OtherError (cls msg : string).

Definition str_exc (e : exc) : string :=
  match e with
  | ValueError m | UnicodeDecodeError m | AttributeError m => m
  | OtherError _ m => m
  end.

Inductive result (A : Type) :=
  | Raise (e : exc)
  | Return (a : A).
Arguments Raise {A} e.
Arguments Return {A} a.

Definition bind {A B} (m : result A) (k : A -> result B) : result B :=
  match m with
  | Raise e => Raise e
  | Return a => k a
  end.

(** [try: m  except Exception as e: h e] *)
Definition try_except {A} (m : result A) (h : exc -> result A) : result A :=
  match m with
  | Raise e => h e
  | Return a => Return a
  end.

Definition raises {A} (m : result A) : Prop :=
  match m with Raise _ => True | Return _ => False end.

Definition returns {A} (m : result A) : Prop :=
  match m with Raise _ => False | Return _ => True end.

(** [str(n)] for an int. *)
Definition str_int (z : Z) : string := pretty z.

(** [str(True)], [str(False)]. *)
Definition str_bool (b : bool) : string := if b then "True" else "False".

(** [str(cell)] *)
Definition str (c : scalar) : string :=
  match c with
  | SNone => "None"
  | SBool b => str_bool b
  | SInt z => str_int z
  | SFloat r => r
  | SStr s => s
  end.

(** [sep.join(l)] *)
Definition join (sep : string) (l : list string) : string := String.concat sep l.

(** Truth value of a string. *)
Definition truthy_str (s : string) : bool :=
  match s with EmptyString => false | _ => true end.

(** Truth value of an optional string ([None] and [""] are false). *)
Definition truthy_ostr (o : option string) : bool :=
  match o with None => false | Some s => truthy_str s end.

(** Truth value of a list. *)
Definition truthy_list {A} (l : list A) : bool :=
  match l with [] => false | _ => true end.

End Py.

Notation "'let*' x ':=' m 'in' k" := (Py.bind m (fun x => k))
  (at level 10, x name, m at level 100, k at level 200).

Import Py.

(** [enumerate(l, start)] *)
Fixpoint enumerate {A} (start : nat) (l : list A) : list (nat * A) :=
  match l with
  | [] => []
  | x :: l' => (start, x) :: enumerate (S start) l'
  end.

(** A dict whose order is observed: the items in insertion order, every
    key once. [d[k] = v] replaces the value of a key already present and
    appends a new key. *)
Fixpoint dict_setitem {V} (k : string) (v : V) (d : list (string * V))
    : list (string * V) :=
  match d with
  | [] => [(k, v)]
  | (k', v') :: d' =>
      if String.eqb k' k then (k', v) :: d' else (k', v') :: dict_setitem k v d'
  end.

(** [d.get(k)] *)
Fixpoint dict_get {V} (k : string) (d : list (string * V)) : option V :=
  match d with
  | [] => None
  | (k', v') :: d' => if String.eqb k' k then Some v' else dict_get k d'
  end.

(** ** models.py *)

Inductive DocumentType := PDF | WORD | EXCEL | CSV | TEXT | HTML | UNKNOWN.

Record Table := mkTable {
  headers : list string;
  rows : list (list string);
  num_rows : Z;
  num_columns : Z
}.

(** [Table()]: every field at its default. *)
Definition Table_default : Table :=
  {| headers := []; rows := []; num_rows := 0; num_columns := 0 |}.

(** Body of the inner loop of [Table.to_dict]:
    [value = row[i] if i < len(row) else ""; row_dict[header] = value]. *)
Definition to_dict_cell (row : list string) (row_dict : list (string * string))
    (ih : nat * string) : list (string * string) :=
  let '(i, header) := ih in
  let value := if (i <? length row)%nat then nth i row "" else "" in
  dict_setitem header value row_dict.

(** One turn of the outer loop: the dict built for [row]. *)
Definition to_dict_row (hs : list string) (row : list string)
    : list (string * string) :=
  foldl (to_dict_cell row) [] (enumerate 0 hs).

(** [Table.to_dict] *)
Definition to_dict (t : Table) : list (list (string * string)) :=
  if negb (truthy_list (headers t)) || negb (truthy_list (rows t)) then []
  else foldl (fun result row => (result ++ [to_dict_row (headers t) row])%list) [] (rows t).

Record ParsedDocument := mkParsedDocument {
  file_path : string;
  document_type : DocumentType;
  text : string;
  tables : list Table;
  metadata : gmap string value;
  raw_content : option string
}.

(** [ParsedDocument.has_tables], [ParsedDocument.get_table_count] *)
Definition has_tables (d : ParsedDocument) : bool := (0 <? length (tables d))%nat.
Definition get_table_count (d : ParsedDocument) : Z := Z.of_nat (length (tables d)).

Record ParserConfig := mkParserConfig {
  extract_tables : bool;
  extract_images : bool;
  ocr_enabled : bool;
  max_file_size_mb : Z;
  encoding : string
}.

(** [ParserConfig()] *)
Definition ParserConfig_default : ParserConfig :=
  {| extract_tables := true; extract_images := false; ocr_enabled := false;
     max_file_size_mb := 50; encoding := "utf-8" |}.

(** ** pathlib and str helpers used by the parsers *)

Module PathLib.

Fixpoint split_on (sep : ascii) (s : string) : list string :=
  match s with
  | EmptyString => [EmptyString]
  | String c s' =>
      if Ascii.eqb c sep then EmptyString :: split_on sep s'
      else match split_on sep s' with
           | [] => [String c EmptyString]
           | x :: xs => String c x :: xs
           end
  end.

(** Components of a POSIX path without the root: empty components and
    ["."] components are dropped when the path is parsed. *)
Definition parts (p : string) : list string :=
  List.filter (fun x => negb (String.eqb x "" || String.eqb x "."))
              (split_on "/" p).

(** [Path(p).name] *)
Definition name (p : string) : string := List.last (parts p) "".

(** [s.rfind('.')], counting from position [pos] of the whole string. *)
Fixpoint rfind_dot (s : string) (pos : nat) : option nat :=
  match s with
  | EmptyString => None
  | String c s' =>
      match rfind_dot s' (S pos) with
      | Some i => Some i
      | None => if Ascii.eqb c "." then Some pos else None
      end
  end.

(** [Path(p).suffix]: [name[i:]] when [0 < i < len(name) - 1] for
    [i = name.rfind('.')], else the empty string. *)
Definition suffix (p : string) : string :=
  let nm := name p in
  match rfind_dot nm 0 with
  | Some i =>
      if ((0 <? i) && (i <? String.length nm - 1))%nat
      then String.substring i (String.length nm - i) nm
      else ""
  | None => ""
  end.

End PathLib.

Definition lower_ascii (c : ascii) : ascii :=
  let n := nat_of_ascii c in
  if ((65 <=? n) && (n <=? 90)
      || (192 <=? n) && (n <=? 222) && negb (n =? 215))%nat
  then ascii_of_nat (n + 32) else c.

(** [s.lower()] on code points below 256: the letters A-Z and the
    capital letters U+00C0 to U+00DE (the sign U+00D7 is no letter). *)
Fixpoint lower (s : string) : string :=
  match s with
  | EmptyString => EmptyString
  | String c s' => String (lower_ascii c) (lower s')
  end.

(** [s.lstrip('.')] *)
Fixpoint lstrip_dot (s : string) : string :=
  match s with
  | String c s' => if Ascii.eqb c "." then lstrip_dot s' else s
  | EmptyString => EmptyString
  end.

(** Characters [str.strip()] removes (white space below code point 256). *)
Definition is_space (c : ascii) : bool :=
  let n := nat_of_ascii c in
  ((9 <=? n) && (n <=? 13) || (28 <=? n) && (n <=? 32)
   || (n =? 133) || (n =? 160))%nat.

Fixpoint lstrip (s : string) : string :=
  match s with
  | String c s' => if is_space c then lstrip s' else s
  | EmptyString => EmptyString
  end.

Fixpoint rstrip (s : string) : string :=
  match s with
  | EmptyString => EmptyString
  | String c s' =>
      match rstrip s' with
      | EmptyString => if is_space c then EmptyString else String c EmptyString
      | r => String c r
      end
  end.

(** [s.strip()] *)
Definition strip (s : string) : string := rstrip (lstrip s).

(** [len(s.splitlines())]: a line ends at LF, VT, FF, CR, CR LF, FS, GS,
    RS or NEL; a last line without terminator counts when not empty. *)
Definition is_linebreak (c : ascii) : bool :=
  let n := nat_of_ascii c in
  ((10 <=? n) && (n <=? 13) || (28 <=? n) && (n <=? 30) || (n =? 133))%nat.

Fixpoint count_lines (pending : bool) (s : string) : nat :=
  match s with
  | EmptyString => if pending then 1 else 0
  | String c s' =>
      if is_linebreak c then
        match s' with
        | String c' s'' =>
            if (nat_of_ascii c =? 13)%nat && (nat_of_ascii c' =? 10)%nat
            then S (count_lines false s'')
            else S (count_lines false s')
        | EmptyString => 1%nat
        end
      else count_lines true s'
  end.

Definition splitlines_len (s : string) : Z := Z.of_nat (count_lines false s).

(** ** The environment: file system and third-party libraries *)

(** A polars [DataFrame]: named columns of equal height. *)
Record DataFrame := mkDataFrame { df_series : list (string * list scalar) }.

(** [df.columns], [df.width], [df.height], [df.iter_rows()] *)
Definition df_columns (df : DataFrame) : list string := map fst (df_series df).
Definition df_width (df : DataFrame) : Z := Z.of_nat (length (df_series df)).
Definition df_height_nat (df : DataFrame) : nat :=
  match df_series df with
  | [] => 0%nat
  | (_, col) :: _ => length col
  end.
Definition df_height (df : DataFrame) : Z := Z.of_nat (df_height_nat df).
Definition df_iter_rows (df : DataFrame) : list (list scalar) :=
  map (fun i => map (fun col => nth i (snd col) SNone) (df_series df))
      (seq 0 (df_height_nat df)).

(** What [pl.read_excel] hands back: one frame, or (for [sheet_id=0]) a
    dict of frames by sheet name. *)
Inductive pl_value :=
  | PlFrame (df : DataFrame)
  | PlSheets (sheets : list (string * DataFrame)).

(** A pdfplumber page: [extract_text()] and [extract_tables()]. *)
Record PlumberPage := mkPlumberPage {
  plumber_extract_text : result (option string);
  plumber_extract_tables : result (option (list (list (list (option string)))))
}.

(** A pypdf reader: [reader.pages] (each with its [extract_text()]) and
    [reader.metadata]. *)
Record PypdfReader := mkPypdfReader {
  pypdf_pages : list (result (option string));
  pypdf_metadata : option (gmap string scalar)
}.

Record World := mkWorld {
  (** [str(Path(p).resolve())] *)
  path_resolve : string -> string;
  (** [Path(p).exists()], [Path(p).is_file()], [Path(p).stat().st_size] *)
  path_exists : string -> bool;
  path_is_file : string -> bool;
  path_st_size : string -> Z;
  (** [open(p, 'r', encoding=enc).read()] *)
  open_read : string -> string -> result string;
  (** [pl.read_csv(p, separator=sep, ignore_errors=True)] *)
  pl_read_csv : string -> string -> result DataFrame;
  (** [pl.read_excel(p, sheet_id=0)] *)
  pl_read_excel : string -> result pl_value;
  (** [str(df)] *)
  pl_str : DataFrame -> string;
  (** [load_workbook(p, read_only=True, data_only=True).active
       .iter_rows(values_only=True)], import included *)
  openpyxl_iter_rows : string -> result (list (list scalar));
  (** [pdfplumber.open(p).pages] *)
  pdfplumber_open : string -> result (list PlumberPage);
  (** [PdfReader(p)], import included *)
  pypdf_open : string -> result PypdfReader
}.

(** ** base_parser.py *)

Module BaseParser.

Section Methods.
Variable w : World.
Variable config : ParserConfig.

(** [BaseParser.validate_file]. The size test divides by [2^20] in
    floating point, which is exact for a file size, so it is the integer
    comparison below. *)
Definition validate_file (fp : string) : bool :=
  if negb (path_exists w fp) then false
  else if negb (path_is_file w fp) then false
  else if path_st_size w fp >? max_file_size_mb config * (1024 * 1024) then false
  else true.

(** [BaseParser.get_file_extension] *)
Definition get_file_extension (fp : string) : string :=
  lstrip_dot (lower (PathLib.suffix fp)).

(** [BaseParser.create_parsed_document]: [tables or []], [metadata or {}]. *)
Definition create_parsed_document (fp : string) (dt : DocumentType)
    (txt : string) (tbls : option (list Table))
    (meta : option (gmap string value)) : ParsedDocument :=
  {| file_path := fp; document_type := dt; text := txt;
     tables := default [] tbls; metadata := default ∅ meta;
     raw_content := None |}.
End Methods.

(** The capability set every parser implements ([BaseParser] is abstract
    in [can_parse] and [parse]). *)
Record Parser := mkParser {
  class_name : string;
  SUPPORTED_EXTENSIONS : list string;
  can_parse : string -> bool;
  parse : string -> result ParsedDocument
}.

End BaseParser.

Abbreviation validate_file := BaseParser.validate_file.
Abbreviation get_file_extension := BaseParser.get_file_extension.
Abbreviation create_parsed_document := BaseParser.create_parsed_document.

(** ** excel_parser.py *)

(** [pl.DataFrame(d)] for a dict of equally long lists of strings. *)
Definition pl_DataFrame (d : list (string * list string)) : DataFrame :=
  mkDataFrame (map (fun kc => (fst kc, map SStr (snd kc))) d).

Module ExcelParser.

Definition SUPPORTED_EXTENSIONS : list string := ["xlsx"; "xls"; "csv"; "tsv"].

Section Methods.
Variable w : World.
Variable config : ParserConfig.

Definition can_parse (fp : string) : bool :=
  let ext := get_file_extension fp in
  bool_decide (ext ∈ SUPPORTED_EXTENSIONS).

(** [_dataframe_to_table] *)
Definition _dataframe_to_table (df : DataFrame) : Table :=
  let headers := df_columns df in
  let rows := map (fun row => map Py.str row) (df_iter_rows df) in
  {| headers := headers; rows := rows;
     num_rows := df_height df; num_columns := df_width df |}.

(** [_dataframe_to_text] *)
Definition _dataframe_to_text (df : DataFrame) : string := pl_str w df.

(** [_create_document_from_dataframe]. Handed the dict that
    [read_excel(sheet_id=0)] may give, its first statement reads
    [df.columns] and raises. *)
Definition _create_document_from_dataframe (fp : string) (v : pl_value)
    (doc_type : DocumentType) (metadata : option (gmap string value))
    : result ParsedDocument :=
  match v with
  | PlSheets _ =>
      Raise (AttributeError "'dict' object has no attribute 'columns'")
  | PlFrame df =>
      let table := _dataframe_to_table df in
      let text := _dataframe_to_text df in
      let meta := default ∅ metadata in
      let meta :=
        <["shape" := VStr (str_int (df_height df) ++ " x " ++ str_int (df_width df))]>
        (<["column_names" := VNames (df_columns df)]>
        (<["columns" := VInt (df_width df)]>
        (<["rows" := VInt (df_height df)]> meta))) in
      Return (create_parsed_document fp doc_type text (Some [table]) (Some meta))
  end.

(** [_parse_as_text] *)
Definition _parse_as_text (fp : string) (doc_type : DocumentType)
    : result ParsedDocument :=
  try_except
    (let* text := open_read w fp (encoding config) in
     Return (create_parsed_document fp doc_type text None None))
    (fun e =>
       Return (create_parsed_document fp doc_type
                 ("Error reading file: " ++ str_exc e) None None)).

(** [_parse_csv] *)
Definition _parse_csv (fp : string) : result ParsedDocument :=
  try_except
    (let* df := pl_read_csv w fp "," in
     _create_document_from_dataframe fp (PlFrame df) CSV None)
    (fun e => _parse_as_text fp CSV).

(** [_parse_tsv] *)
Definition _parse_tsv (fp : string) : result ParsedDocument :=
  try_except
    (let* df := pl_read_csv w fp (String (ascii_of_nat 9) "") in
     _create_document_from_dataframe fp (PlFrame df) CSV None)
    (fun e => _parse_as_text fp CSV).

(** The dict comprehension of [_parse_excel_fallback]:
    [{header: [row[i] if i < len(row) else "" for row in rows]
      for i, header in enumerate(headers)}] *)
Definition fallback_columns (headers : list string) (rows : list (list string))
    : list (string * list string) :=
  foldl (fun d ih =>
           dict_setitem (snd ih)
             (map (fun row => if (fst ih <? length row)%nat
                              then nth (fst ih) row "" else "") rows) d)
        [] (enumerate 0 headers).

(** [_parse_excel_fallback] *)
Definition _parse_excel_fallback (fp : string) : result ParsedDocument :=
  try_except
    (let* sheet_rows := openpyxl_iter_rows w fp in
     let data :=
       map (fun row => map (fun cell => match cell with
                                        | SNone => ""
                                        | _ => Py.str cell
                                        end) row) sheet_rows in
     match data with
     | [] => Return (create_parsed_document fp EXCEL "Empty spreadsheet" None None)
     | headers :: rows =>
         let df := pl_DataFrame (fallback_columns headers rows) in
         _create_document_from_dataframe fp (PlFrame df) EXCEL None
     end)
    (fun e =>
       Return (create_parsed_document fp EXCEL
                 ("Error parsing Excel file: " ++ str_exc e) None None)).

(** [_parse_excel] *)
Definition _parse_excel (fp : string) : result ParsedDocument :=
  try_except
    (let* df := pl_read_excel w fp in
     let metadata : gmap string value :=
       <["format" := VStr "excel"]> (<["sheet_name" := VStr "Sheet1"]> ∅) in
     _create_document_from_dataframe fp df EXCEL (Some metadata))
    (fun e => _parse_excel_fallback fp).

(** [ExcelParser.parse] *)
Definition parse (fp : string) : result ParsedDocument :=
  if negb (validate_file w config fp) then Raise (ValueError ("Invalid file: " ++ fp))
  else
    let ext := get_file_extension fp in
    try_except
      (if String.eqb ext "csv" then _parse_csv fp
       else if String.eqb ext "tsv" then _parse_tsv fp
       else _parse_excel fp)
      (fun e => Raise e).

Definition make : BaseParser.Parser :=
  {| BaseParser.class_name := "ExcelParser";
     BaseParser.SUPPORTED_EXTENSIONS := SUPPORTED_EXTENSIONS;
     BaseParser.can_parse := can_parse;
     BaseParser.parse := parse |}.
End Methods.

End ExcelParser.

(** ** pdf_parser.py *)

Module PDFParser.

Definition SUPPORTED_EXTENSIONS : list string := ["pdf"].

(** [f"\n--- Page {page_num} ---\n"] *)
Definition page_marker (page_num : nat) : string :=
  String (ascii_of_nat 10) "--- Page " ++ str_int (Z.of_nat page_num) ++ " ---"
  ++ String (ascii_of_nat 10) "".

(** [[str(cell) if cell else "" for cell in row]] *)
Definition convert_row (row : list (option string)) : list string :=
  map (fun cell => if truthy_ostr cell then default "" cell else "") row.

(** [PDFParser._convert_table] *)
Definition _convert_table (table_data : list (list (option string))) : Table :=
  match table_data with
  | [] => Table_default
  | first :: rest =>
      let headers := convert_row first in
      let rows := map convert_row rest in
      {| headers := headers; rows := rows;
         num_rows := Z.of_nat (length rows);
         num_columns := Z.of_nat (length headers) |}
  end.

Section Methods.
Variable w : World.
Variable config : ParserConfig.

Definition can_parse (fp : string) : bool :=
  String.eqb (get_file_extension fp) "pdf".

(** The tables one page adds to [all_tables]. *)
Definition page_tables (tables : option (list (list (list (option string)))))
    : list Table :=
  match tables with
  | None => []
  | Some ts =>
      map _convert_table (List.filter (fun table_data => truthy_list table_data) ts)
  end.

(** The page loop of [_parse_with_pdfplumber], threading [all_text] and
    [all_tables]. *)
Fixpoint plumber_loop (pages : list (nat * PlumberPage))
    (all_text : list string) (all_tables : list Table)
    : result (list string * list Table) :=
  match pages with
  | [] => Return (all_text, all_tables)
  | (page_num, page) :: pages' =>
      let* text := plumber_extract_text page in
      let all_text :=
        if truthy_ostr text
        then (all_text ++ [page_marker page_num; default "" text])%list
        else all_text in
      if extract_tables config then
        let* tables := plumber_extract_tables page in
        plumber_loop pages' all_text (all_tables ++ page_tables tables)%list
      else plumber_loop pages' all_text all_tables
  end.

(** [_parse_with_pdfplumber] *)
Definition _parse_with_pdfplumber (fp : string) : result ParsedDocument :=
  let* pages := pdfplumber_open w fp in
  let metadata : gmap string value := <["pages" := VInt (Z.of_nat (length pages))]> ∅ in
  let* acc := plumber_loop (enumerate 1 pages) [] [] in
  let combined_text := join (String (ascii_of_nat 10) "") (fst acc) in
  Return (create_parsed_document fp PDF combined_text (Some (snd acc)) (Some metadata)).

(** The page loop of [_parse_with_pypdf]. *)
Fixpoint pypdf_loop (pages : list (nat * result (option string)))
    (all_text : list string) : result (list string) :=
  match pages with
  | [] => Return all_text
  | (page_num, page) :: pages' =>
      let* text := page in
      pypdf_loop pages'
        (if truthy_ostr text
         then (all_text ++ [page_marker page_num; default "" text])%list
         else all_text)
  end.

(** [reader.metadata.get(key, '')] *)
Definition info_get (info : gmap string scalar) (key : string) : value :=
  match info !! key with
  | Some c => VScalar c
  | None => VStr ""
  end.

(** [_parse_with_pypdf] *)
Definition _parse_with_pypdf (fp : string) : result ParsedDocument :=
  let* reader := pypdf_open w fp in
  let metadata : gmap string value :=
    <["method" := VStr "pypdf"]>
    (<["pages" := VInt (Z.of_nat (length (pypdf_pages reader)))]> ∅) in
  let metadata :=
    match pypdf_metadata reader with
    | Some info =>
        if bool_decide (info = ∅) then metadata
        else <["subject" := info_get info "/Subject"]>
             (<["author" := info_get info "/Author"]>
             (<["title" := info_get info "/Title"]> metadata))
    | None => metadata
    end in
  let* all_text := pypdf_loop (enumerate 1 (pypdf_pages reader)) [] in
  let combined_text := join (String (ascii_of_nat 10) "") all_text in
  Return (create_parsed_document fp PDF combined_text None (Some metadata)).

(** [PDFParser.parse] *)
Definition parse (fp : string) : result ParsedDocument :=
  if negb (validate_file w config fp) then Raise (ValueError ("Invalid file: " ++ fp))
  else
    try_except (_parse_with_pdfplumber fp)
      (fun e => try_except (_parse_with_pypdf fp) (fun e2 => Raise e2)).

Definition make : BaseParser.Parser :=
  {| BaseParser.class_name := "PDFParser";
     BaseParser.SUPPORTED_EXTENSIONS := SUPPORTED_EXTENSIONS;
     BaseParser.can_parse := can_parse;
     BaseParser.parse := parse |}.
End Methods.

End PDFParser.

(** ** word_parser.py *)

Module WordParser.

Definition SUPPORTED_EXTENSIONS : list string := ["docx"; "doc"].

(** [WordParser._parse_word_table]; a python-docx table is read through
    [row.cells] and [cell.text] only, so it is given as its rows of cell
    texts. *)
Definition _parse_word_table (word_table : list (list string)) : Table :=
  let rows_data := map (fun row => map (fun cell_text => strip cell_text) row) word_table in
  match rows_data with
  | [] => Table_default
  | headers :: rows =>
      {| headers := headers; rows := rows;
         num_rows := Z.of_nat (length rows);
         num_columns := Z.of_nat (length headers) |}
  end.

End WordParser.

(** ** text_parser.py *)

Module TextParser.

Definition SUPPORTED_EXTENSIONS : list string := ["txt"; "text"; "md"; "markdown"; "log"].

(** The encodings tried after the configured one. *)
Definition fallback_encodings : list string := ["latin-1"; "cp1252"; "iso-8859-1"].

Section Methods.
Variable w : World.
Variable config : ParserConfig.

Definition can_parse (fp : string) : bool :=
  bool_decide (get_file_extension fp ∈ SUPPORTED_EXTENSIONS).

(** The body shared by both [try] blocks: read with [enc], build the
    metadata and the document. *)
Definition read_with (fp enc : string) : result ParsedDocument :=
  let* text := open_read w fp enc in
  let metadata : gmap string value :=
    <["characters" := VInt (Z.of_nat (String.length text))]>
    (<["lines" := VInt (splitlines_len text)]>
    (<["encoding" := VStr enc]> ∅)) in
  Return (create_parsed_document fp TEXT text None (Some metadata)).

(** The [for encoding in [...]] loop with its bare [except: continue],
    followed by the final [raise]. *)
Fixpoint retry (fp : string) (encodings : list string) : result ParsedDocument :=
  match encodings with
  | [] => Raise (ValueError ("Could not decode text file: " ++ fp))
  | enc :: encodings' =>
      try_except (read_with fp enc) (fun _ => retry fp encodings')
  end.

(** [TextParser.parse]: only a [UnicodeDecodeError] of the first read
    starts the retries. *)
Definition parse (fp : string) : result ParsedDocument :=
  if negb (validate_file w config fp) then Raise (ValueError ("Invalid file: " ++ fp))
  else
    try_except (read_with fp (encoding config))
      (fun e => match e with
                | UnicodeDecodeError _ => retry fp fallback_encodings
                | _ => Raise e
                end).

Definition make : BaseParser.Parser :=
  {| BaseParser.class_name := "TextParser";
     BaseParser.SUPPORTED_EXTENSIONS := SUPPORTED_EXTENSIONS;
     BaseParser.can_parse := can_parse;
     BaseParser.parse := parse |}.
End Methods.

End TextParser.

(** ** universal_parser.py *)

(** [sorted(set(l))] for strings: insertion into a strictly increasing
    list, by code point order. *)
Fixpoint insert_sorted (x : string) (l : list string) : list string :=
  match l with
  | [] => [x]
  | y :: l' =>
      match String.compare x y with
      | Lt => x :: y :: l'
      | Eq => y :: l'
      | Gt => y :: insert_sorted x l'
      end
  end.

Definition sorted_set (l : list string) : list string :=
  foldr insert_sorted [] l.

Module UniversalParser.

(** The table of [detect_format]. *)
Definition format_map : list (string * DocumentType) :=
  [("pdf", PDF); ("docx", WORD); ("doc", WORD); ("xlsx", EXCEL);
   ("xls", EXCEL); ("csv", CSV); ("tsv", CSV); ("txt", TEXT);
   ("text", TEXT); ("md", TEXT); ("markdown", TEXT)].

(** [UniversalParser.detect_format] *)
Definition detect_format (file_path : string) : DocumentType :=
  let ext := lstrip_dot (lower (PathLib.suffix file_path)) in
  default UNKNOWN (snd <$> List.find (fun kv => String.eqb (fst kv) ext) format_map).

(** The text of the final [ValueError] of [parse]. *)
Definition no_parser_message (ext : string) : string :=
  "No parser available for file type: " ++ ext ++ String (ascii_of_nat 10) ""
  ++ "Supported formats: PDF (.pdf), Excel (.xlsx, .xls), CSV (.csv)".

(** The document [parse_multiple] stores for a path whose parse raised. *)
Definition error_document (fp : string) (e : exc) : ParsedDocument :=
  {| file_path := fp; document_type := UNKNOWN;
     text := "Error: " ++ str_exc e; tables := [];
     metadata := <["error" := VStr (str_exc e)]> ∅;
     raw_content := None |}.

Section Methods.
Variable w : World.
(** [self.parsers] *)
Variable parsers : list BaseParser.Parser.

(** The [for parser in self.parsers] loop of [parse]: [Some] document on
    the first successful attempt, [None] when the loop runs out. *)
Fixpoint try_parsers (ps : list BaseParser.Parser) (fp : string)
    : option ParsedDocument :=
  match ps with
  | [] => None
  | parser :: ps' =>
      if BaseParser.can_parse parser fp then
        match BaseParser.parse parser fp with
        | Return doc => Some doc
        | Raise _ => try_parsers ps' fp
        end
      else try_parsers ps' fp
  end.

(** [UniversalParser.parse], from the point where the path has been
    resolved and its existence tested: [path_resolve] and [path_exists]
    give what the two calls return. *)
Definition parse (file_path : string) : result ParsedDocument :=
  let file_path := path_resolve w file_path in
  if negb (path_exists w file_path)
  then Raise (ValueError ("File not found: " ++ file_path))
  else
    match try_parsers parsers file_path with
    | Some doc => Return doc
    | None =>
        let ext := PathLib.suffix file_path in
        Raise (ValueError (no_parser_message ext))
    end.

(** [UniversalParser.can_parse] *)
Definition can_parse (file_path : string) : bool :=
  existsb (fun parser => BaseParser.can_parse parser file_path) parsers.

(** [UniversalParser.get_supported_formats]: the declared extensions of
    every registered parser, [sorted(set(formats))]. *)
Definition get_supported_formats : list string :=
  let formats :=
    foldl (fun formats parser =>
             (formats ++ BaseParser.SUPPORTED_EXTENSIONS parser)%list)
          [] parsers in
  sorted_set formats.

(** [UniversalParser.parse_multiple] *)
Definition parse_multiple (file_paths : list string) : list ParsedDocument :=
  foldl (fun results file_path =>
           match parse file_path with
           | Return doc => (results ++ [doc])%list
           | Raise e => (results ++ [error_document file_path e])%list
           end)
        [] file_paths.
End Methods.

(** [self.parsers] as [__init__] sets it. *)
Definition registered (w : World) (config : ParserConfig) : list BaseParser.Parser :=
  [PDFParser.make w config; ExcelParser.make w config].

End UniversalParser.

(** ** A concrete environment

    A directory [/data] holding a three-page PDF without tables (its second
    page empty), a PDF neither reader can open, a Word file, a CSV file, a
    workbook that is not a zip archive, a Latin-1 text file, and a
    sub-directory whose name ends in [.tsv]. *)

Module Demo.

Definition LF : string := String (ascii_of_nat 10) "".

Definition files : list string :=
  ["/data/guide.pdf"; "/data/broken.pdf"; "/data/notes.docx";
   "/data/table.csv"; "/data/broken.xlsx"; "/data/legacy.txt"].

Definition directories : list string := ["/data"; "/data/export.tsv"].

Definition starts_with_slash (p : string) : bool :=
  match p with
  | String c _ => Ascii.eqb c "/"
  | EmptyString => false
  end.

Definition table_frame : DataFrame :=
  mkDataFrame [("seg", [SStr "ISA"; SStr "GS"]); ("max", [SInt 1; SInt 99])].

Definition guide_pages : list PlumberPage :=
  [ mkPlumberPage (Return (Some "Alpha")) (Return (Some []));
    mkPlumberPage (Return (Some "")) (Return (Some []));
    mkPlumberPage (Return (Some "Gamma")) (Return None) ].

Definition world : World :=
  {| path_resolve := fun p => if starts_with_slash p then p else "/data/" ++ p;
     path_exists := fun p => bool_decide (p ∈ files) || bool_decide (p ∈ directories);
     path_is_file := fun p => bool_decide (p ∈ files);
     path_st_size := fun _ => 4096;
     open_read := fun p enc =>
       if String.eqb p "/data/legacy.txt" then
         if String.eqb enc "utf-8"
         then Raise (UnicodeDecodeError "'utf-8' codec can't decode byte 0xe9")
         else Return ("caf" ++ String (ascii_of_nat 233) "" ++ LF ++ "menu" ++ LF)
       else if String.eqb p "/data/table.csv" then Return ("seg,max" ++ LF)
       else Raise (OtherError "OSError" "cannot read");
     pl_read_csv := fun p _ =>
       if String.eqb p "/data/table.csv" then Return table_frame
       else Raise (OtherError "ComputeError" "could not parse");
     pl_read_excel := fun _ => Raise (OtherError "ComputeError" "could not read workbook");
     pl_str := fun df => "shape: (" ++ str_int (df_height df) ++ ", "
                         ++ str_int (df_width df) ++ ")";
     openpyxl_iter_rows := fun _ => Raise (OtherError "BadZipFile" "File is not a zip file");
     pdfplumber_open := fun p =>
       if String.eqb p "/data/guide.pdf" then Return guide_pages
       else Raise (OtherError "PDFSyntaxError" "No /Root object!");
     pypdf_open := fun _ => Raise (OtherError "PdfReadError" "EOF marker not found") |}.

Definition config : ParserConfig := ParserConfig_default.

Definition parsers : list BaseParser.Parser := UniversalParser.registered world config.

(** Headers [A, B, C] with a short and a long row. *)
Definition ragged : Table :=
  {| headers := ["A"; "B"; "C"];
     rows := [["x"; "y"]; ["x"; "y"; "z"; "w"]];
     num_rows := 2; num_columns := 3 |}.

(** Rows but no headers. *)
Definition headerless : Table :=
  {| headers := []; rows := [["x"; "y"]]; num_rows := 1; num_columns := 0 |}.

End Demo.

(** ** models.py: [ParsedDocument.get_all_text] *)

(** [s * n] *)
Fixpoint str_repeat (s : string) (n : nat) : string :=
  match n with
  | O => ""
  | S n' => s ++ str_repeat s n'
  end.

(** The lines one table adds to [all_text]: a heading and a rule when the
    table has headers, then one line per row. *)
Definition table_lines (all_text : list string) (table : Table) : list string :=
  let heading :=
    String (ascii_of_nat 10) (String (ascii_of_nat 10) "")
    ++ join " | " (headers table) in
  let all_text :=
    if truthy_list (headers table)
    then (all_text ++ [heading; str_repeat "-" 50])%list
    else all_text in
  foldl (fun all_text row => (all_text ++ [join " | " row])%list) all_text (rows table).

(** [ParsedDocument.get_all_text] *)
Definition get_all_text (d : ParsedDocument) : string :=
  let all_text := foldl table_lines [text d] (tables d) in
  join (String (ascii_of_nat 10) "") all_text.

(** ** word_parser.py: the methods around [_parse_word_table] *)

(** [doc.core_properties] of python-docx; [created] is kept as the text
    [str] gives for it. *)
Record CoreProperties := mkCoreProperties {
  cp_title : option string;
  cp_author : option string;
  cp_subject : option string;
  cp_created : option string
}.

(** A python-docx [Document]: the texts of its paragraphs, its tables as
    rows of cell texts, and its core properties (reading them may raise). *)
Record DocxDocument := mkDocxDocument {
  docx_paragraphs : list string;
  docx_tables : list (list (list string));
  docx_core_properties : result CoreProperties
}.

Module WordParserMethods.

Section Methods.
Variable w : World.
Variable config : ParserConfig.
(** [Document(p)], import included *)
Variable docx_open : string -> result DocxDocument.

Definition can_parse (fp : string) : bool :=
  bool_decide (get_file_extension fp ∈ WordParser.SUPPORTED_EXTENSIONS).

(** [WordParser._parse_as_text] *)
Definition _parse_as_text (fp : string) : ParsedDocument :=
  create_parsed_document fp WORD
    "Note: .doc format requires conversion to .docx for full parsing"
    None
    (Some (<["warning" := VStr "Limited parsing for .doc format"]> ∅)).

(** [x or ''] *)
Definition or_empty (o : option string) : string :=
  if truthy_ostr o then default "" o else "".

(** [WordParser._parse_docx] *)
Definition _parse_docx (fp : string) : result ParsedDocument :=
  let* doc := docx_open fp in
  let paragraphs :=
    List.filter truthy_str (map (fun para_text => strip para_text) (docx_paragraphs doc)) in
  let combined_text :=
    join (String (ascii_of_nat 10) (String (ascii_of_nat 10) "")) paragraphs in
  let tables :=
    if extract_tables config && truthy_list (docx_tables doc)
    then List.filter (fun parsed_table => truthy_list (rows parsed_table))
                     (map WordParser._parse_word_table (docx_tables doc))
    else [] in
  let metadata : gmap string value :=
    <["tables" := VInt (Z.of_nat (length (docx_tables doc)))]>
    (<["paragraphs" := VInt (Z.of_nat (length (docx_paragraphs doc)))]> ∅) in
  let metadata :=
    match docx_core_properties doc with
    | Return core_props =>
        <["created" := VStr (default "" (cp_created core_props))]>
        (<["subject" := VStr (or_empty (cp_subject core_props))]>
        (<["author" := VStr (or_empty (cp_author core_props))]>
        (<["title" := VStr (or_empty (cp_title core_props))]> metadata)))
    | Raise _ => metadata
    end in
  Return (create_parsed_document fp WORD combined_text (Some tables) (Some metadata)).

(** [WordParser.parse] *)
Definition parse (fp : string) : result ParsedDocument :=
  if negb (validate_file w config fp) then Raise (ValueError ("Invalid file: " ++ fp))
  else
    let ext := get_file_extension fp in
    if String.eqb ext "doc" then Return (_parse_as_text fp)
    else try_except (_parse_docx fp) (fun e => Raise e).

Definition make : BaseParser.Parser :=
  {| BaseParser.class_name := "WordParser";
     BaseParser.SUPPORTED_EXTENSIONS := WordParser.SUPPORTED_EXTENSIONS;
     BaseParser.can_parse := can_parse;
     BaseParser.parse := parse |}.
End Methods.

End WordParserMethods.

(** ** universal_parser.py: [parse_document] *)

(** [parse_document(file_path, extract_tables, extract_images)] *)
Definition parse_document (w : World) (file_path : string)
    (extract_tables extract_images : bool) : result ParsedDocument :=
  let config :=
    {| extract_tables := extract_tables; extract_images := extract_images;
       ocr_enabled := false; max_file_size_mb := 50; encoding := "utf-8" |} in
  UniversalParser.parse w (UniversalParser.registered w config) file_path.

(** ** multifile_chatbot.py: the loop that builds [doc_parts] *)

Module Chatbot.

(** [types.Part(text=...)] and [types.Part.from_bytes(data, mime_type)]. *)
Inductive Part :=
  | TextPart (text : string)
  | BytesPart (data : string) (mime_type : option string).

Record Env := mkEnv {
  (** [filepath.exists()] *)
  exists_ : string -> bool;
  (** [pd.read_excel(filepath).to_csv(index=False)] *)
  read_excel_to_csv : string -> result string;
  (** [mimetypes.guess_type(filepath)[0]] *)
  guess_type : string -> option string;
  (** [filepath.read_bytes()] *)
  read_bytes : string -> result string
}.

Definition excel_part (file_name csv_text : string) : Part :=
  TextPart ("--- START OF EXCEL FILE: " ++ PathLib.name file_name ++ " ---"
            ++ String (ascii_of_nat 10) "" ++ csv_text
            ++ String (ascii_of_nat 10) "" ++ "--- END OF EXCEL FILE ---").

(** The part after the Excel branch: the raw bytes with the guessed MIME
    type. A failing read is not caught. *)
Definition bytes_part (env : Env) (file_name : string) : result Part :=
  let mime_type := guess_type env file_name in
  let* doc_data := read_bytes env file_name in
  Return (BytesPart doc_data mime_type).

(** The [for file_name in upload_files] loop, threading [doc_parts]. *)
Fixpoint build_parts (env : Env) (upload_files : list string) (doc_parts : list Part)
    : result (list Part) :=
  match upload_files with
  | [] => Return doc_parts
  | file_name :: rest =>
      if negb (exists_ env file_name) then build_parts env rest doc_parts
      else
        let suffix := lower (PathLib.suffix file_name) in
        if String.eqb suffix ".xlsx" || String.eqb suffix ".xls" then
          match read_excel_to_csv env file_name with
          | Return csv_text =>
              build_parts env rest (doc_parts ++ [excel_part file_name csv_text])%list
          | Raise _ =>
              let* part := bytes_part env file_name in
              build_parts env rest (doc_parts ++ [part])%list
          end
        else
          let* part := bytes_part env file_name in
          build_parts env rest (doc_parts ++ [part])%list
  end.

End Chatbot.

(** ** Vocabulary of the statements *)

(** The cached counts of a table agree with its rows and headers. *)
Definition counts_match (t : Table) : Prop :=
  num_rows t = Z.of_nat (length (rows t)) /\
  num_columns t = Z.of_nat (length (headers t)).

(** Following the specification: a row is padded with empty strings up
    to [n] cells and cells beyond the [n]-th are dropped; the keyed form
    pairs the headers, in order, with the cells so reconciled. *)
Definition pad_and_drop (n : nat) (row : list string) : list string :=
  take n (row ++ replicate n "")%list.

Definition keyed_row (hs row : list string) : list (string * string) :=
  zip hs (pad_and_drop (length hs) row).

(** A parser that matches [fp] fails on it. *)
Definition attempt_fails (fp : string) (p : BaseParser.Parser) : Prop :=
  BaseParser.can_parse p fp = true -> raises (BaseParser.parse p fp).

(** What [parse_multiple] keeps for one path. *)
Definition batch_entry (w : World) (ps : list BaseParser.Parser) (fp : string)
    : ParsedDocument :=
  match UniversalParser.parse w ps fp with
  | Return doc => doc
  | Raise e => UniversalParser.error_document fp e
  end.

(** The primary spreadsheet read fails: [read_excel] raises, or hands back
    the dict of sheets, on which the conversion raises. *)
Definition excel_primary_fails (w : World) (fp : string) : Prop :=
  match pl_read_excel w fp with
  | Raise _ => True
  | Return (PlSheets _) => True
  | Return (PlFrame _) => False
  end.

(** The separator the delimited read of [fp] uses. *)
Definition delimiter_for (ext sep : string) : Prop :=
  (ext = "csv" /\ sep = ",") \/ (ext = "tsv" /\ sep = String (ascii_of_nat 9) "").

(** A document with a text body only. *)
Definition text_only (fp : string) (dt : DocumentType) (body : string)
    : ParsedDocument :=
  {| file_path := fp; document_type := dt; text := body; tables := [];
     metadata := ∅; raw_content := None |}.

(** A page whose text is [t], and a page on which no table is found. *)
Definition page_has_text (p : PlumberPage) (t : option string) : Prop :=
  plumber_extract_text p = Return t.

Definition page_has_no_table (p : PlumberPage) : Prop :=
  plumber_extract_tables p = Return None \/
  plumber_extract_tables p = Return (Some []).

(** Following the specification: for each page in order, numbered from
    [start], a page-boundary marker and then the page's text; pages whose
    text is empty are skipped. *)
Definition page_sections_from (start : nat) (texts : list (option string))
    : list string :=
  concat (map (fun nt : nat * option string =>
                 if truthy_ostr (snd nt)
                 then [PDFParser.page_marker (fst nt); default "" (snd nt)]
                 else [])
              (enumerate start texts)).

Definition page_sections (texts : list (option string)) : list string :=
  page_sections_from 1 texts.

(** The document the text parser builds from [body] decoded with [enc]. *)
Definition text_document (fp enc body : string) : ParsedDocument :=
  {| file_path := fp; document_type := TEXT; text := body; tables := [];
     metadata :=
       <["encoding" := VStr enc]>
       (<["lines" := VInt (splitlines_len body)]>
       (<["characters" := VInt (Z.of_nat (String.length body))]> ∅));
     raw_content := None |}.

(** Reading [fp] fails with every encoding of [encs]. *)
Definition all_reads_fail (w : World) (fp : string) (encs : list string) : Prop :=
  Forall (fun enc => raises (open_read w fp enc)) encs.

(** ** Vocabulary of the further statements *)

(** The document type the tabular parser gives for an extension. *)
Definition tabular_type (ext : string) : DocumentType :=
  if String.eqb ext "csv" || String.eqb ext "tsv" then CSV else EXCEL.

(** Two configurations agree on the options the parsers read. *)
Definition same_read_options (c1 c2 : ParserConfig) : Prop :=
  extract_tables c1 = extract_tables c2 /\
  max_file_size_mb c1 = max_file_size_mb c2 /\
  encoding c1 = encoding c2.

(** Strictly increasing, by code point order. *)
Definition strictly_increasing (l : list string) : Prop :=
  Sorted.StronglySorted (fun a b => String.compare a b = Lt) l.

(** The text the openpyxl walk keeps for a cell, and for a sheet. *)
Definition cell_text (cell : scalar) : string :=
  match cell with
  | SNone => ""
  | _ => Py.str cell
  end.

Definition sheet_texts (sheet_rows : list (list scalar)) : list (list string) :=
  map (fun row => map cell_text row) sheet_rows.

(** Every row of a table has as many cells as the table has headers. *)
Definition rectangular (t : Table) : Prop :=
  Forall (fun row => length row = length (headers t)) (rows t).

(** A page whose raw tables are [ts]. *)
Definition page_has_tables (p : PlumberPage)
    (ts : option (list (list (list (option string))))) : Prop :=
  plumber_extract_tables p = Return ts.

(** The lines [get_all_text] writes for one table. *)
Definition table_block (t : Table) : list string :=
  let heading :=
    String (ascii_of_nat 10) (String (ascii_of_nat 10) "")
    ++ join " | " (headers t) in
  ((if truthy_list (headers t) then [heading; str_repeat "-" 50] else [])
   ++ map (fun row => join " | " row) (rows t))%list.

(** The placeholder document for a [.doc] file. *)
Definition doc_placeholder (fp : string) : ParsedDocument :=
  {| file_path := fp; document_type := WORD;
     text := "Note: .doc format requires conversion to .docx for full parsing";
     tables := [];
     metadata := <["warning" := VStr "Limited parsing for .doc format"]> ∅;
     raw_content := None |}.

(** The chat script takes a file for a workbook by its suffix. *)
Definition workbook_name (file_name : string) : Prop :=
  lower (PathLib.suffix file_name) = ".xlsx" \/
  lower (PathLib.suffix file_name) = ".xls".

(** The part the chat script is to hold for an existing file: the CSV
    text between the two marker lines for a workbook pandas reads, and
    otherwise the bytes of the file with the guessed MIME type. *)
Definition part_for (env : Chatbot.Env) (file_name : string) (part : Chatbot.Part)
    : Prop :=
  (workbook_name file_name /\
   exists csv_text,
     Chatbot.read_excel_to_csv env file_name = Return csv_text /\
     part = Chatbot.excel_part file_name csv_text) \/
  ((~ workbook_name file_name \/ raises (Chatbot.read_excel_to_csv env file_name)) /\
   exists data,
     Chatbot.read_bytes env file_name = Return data /\
     part = Chatbot.BytesPart data (Chatbot.guess_type env file_name)).

(** A second concrete environment: a workbook polars cannot read but
    openpyxl can, a PDF whose second page cannot be read by pdfplumber, a
    Word file, and the files of the chat script. *)
Module Demo2.

Definition sheet : list (list scalar) :=
  [ [SStr "Seg"; SStr "Name"; SStr "Max"];
    [SStr "ISA"; SNone];
    [SStr "GS"; SStr "Group"; SInt 35; SStr "extra"] ].

Definition world : World :=
  {| path_resolve := path_resolve Demo.world;
     path_exists := fun p => String.prefix "/data/" p;
     path_is_file := fun p => String.prefix "/data/" p;
     path_st_size := fun _ => 1024;
     open_read := fun p enc =>
       if String.eqb enc "utf-8" then Raise (OtherError "PermissionError" "denied")
       else Return "never read";
     pl_read_csv := fun _ _ => Return Demo.table_frame;
     pl_read_excel := fun _ => Return (PlSheets [("Sheet1", Demo.table_frame)]);
     pl_str := pl_str Demo.world;
     openpyxl_iter_rows := fun _ => Return sheet;
     pdfplumber_open := fun _ =>
       Return [ mkPlumberPage (Return (Some "One")) (Return (Some []));
                mkPlumberPage (Raise (OtherError "PSException" "bad stream"))
                              (Return (Some [])) ];
     pypdf_open := fun _ =>
       Return (mkPypdfReader [Return (Some "One"); Return (Some "Two")] None) |}.

(** The same, with a sheet whose first row has no cell. *)
Definition blank_world : World :=
  {| path_resolve := path_resolve world; path_exists := path_exists world;
     path_is_file := path_is_file world; path_st_size := path_st_size world;
     open_read := open_read world; pl_read_csv := pl_read_csv world;
     pl_read_excel := pl_read_excel world; pl_str := pl_str world;
     openpyxl_iter_rows := fun _ => Return [[]; [SStr "lost"; SInt 1]];
     pdfplumber_open := pdfplumber_open world;
     pypdf_open := pypdf_open world |}.

Definition tabled_pages : list PlumberPage :=
  [ mkPlumberPage (Return (Some "One"))
      (Return (Some [ [[Some "Seg"; None]; [Some "ISA"; Some "1"]]; [] ]));
    mkPlumberPage (Return None) (Return None) ].

Definition tabled_world : World :=
  {| path_resolve := path_resolve world; path_exists := path_exists world;
     path_is_file := path_is_file world; path_st_size := path_st_size world;
     open_read := open_read world; pl_read_csv := pl_read_csv world;
     pl_read_excel := pl_read_excel world; pl_str := pl_str world;
     openpyxl_iter_rows := openpyxl_iter_rows world;
     pdfplumber_open := fun _ => Return tabled_pages;
     pypdf_open := pypdf_open world |}.

Definition letter : DocxDocument :=
  {| docx_paragraphs := ["  Dear all, "; "   "; "see the table."];
     docx_tables := [ [["Seg "; "Name"]; ["ISA"; " Header"]]; [["only a header"]] ];
     docx_core_properties := Raise (OtherError "KeyError" "no core properties") |}.

Definition docx_open (p : string) : result DocxDocument :=
  if String.eqb p "/data/letter.docx" then Return letter
  else Raise (OtherError "PackageNotFoundError" "Package not found").

(** A parser that matches every path and fails on every path. *)
Definition refusing : BaseParser.Parser :=
  {| BaseParser.class_name := "Refusing";
     BaseParser.SUPPORTED_EXTENSIONS := [];
     BaseParser.can_parse := fun _ => true;
     BaseParser.parse := fun _ => Raise (OtherError "RuntimeError" "refused") |}.

Definition chat_env : Chatbot.Env :=
  {| Chatbot.exists_ := fun p => negb (String.eqb p "upload/Payslip.pdf");
     Chatbot.read_excel_to_csv := fun _ => Return "a,b";
     Chatbot.guess_type := fun _ => Some "application/pdf";
     Chatbot.read_bytes := fun _ => Return "%PDF" |}.

End Demo2.

(** * Properties *)

(** ** Loops that append are maps *)

Lemma foldl_snoc_map {A B} (f : A -> B) (l : list A) (acc : list B) :
  foldl (fun acc x => (acc ++ [f x])%list) acc l = (acc ++ map f l)%list.
Proof.
  revert acc. induction l as [|x l IH]; intros acc; simpl.
  - by rewrite app_nil_r.
  - rewrite IH. by rewrite <- app_assoc.
Qed.

Lemma enumerate_length {A} (l : list A) k : length (enumerate k l) = length l.
Proof. revert k. induction l; intros k; simpl; [done | by rewrite IHl]. Qed.

Lemma enumerate_lookup {A} (l : list A) k i x :
  l !! i = Some x -> enumerate k l !! i = Some ((k + i)%nat, x).
Proof.
  revert k i. induction l as [|y l IH]; intros k [|i] H; simplify_eq/=.
  - by rewrite Nat.add_0_r.
  - rewrite (IH (S k) i H). do 2 f_equal. lia.
Qed.

(** ** models.py: [Table.to_dict] *)

Lemma getitem_or_empty (row : list string) (i : nat) :
  (if (i <? length row)%nat then nth i row "" else "") = default "" (row !! i).
Proof.
  destruct (Nat.ltb_spec i (length row)) as [Hlt|Hge].
  - destruct (lookup_lt_is_Some_2 row i Hlt) as [v Hv].
    rewrite Hv. simpl. by apply nth_lookup_Some with (d := "") in Hv.
  - by rewrite (lookup_ge_None_2 row i Hge).
Qed.

Lemma to_dict_unfold (t : Table) :
  headers t <> [] -> rows t <> [] ->
  to_dict t = map (to_dict_row (headers t)) (rows t).
Proof.
  intros Hh Hr. unfold to_dict.
  destruct (headers t) as [|h hs]; [done|].
  destruct (rows t) as [|r rs]; [done|].
  cbn [truthy_list negb orb]. by rewrite foldl_snoc_map.
Qed.

(** *** Ordered dicts *)

Lemma dict_get_setitem_eq {V} (k : string) (v : V) d :
  dict_get k (dict_setitem k v d) = Some v.
Proof.
  induction d as [|[k' v'] d IH]; simpl.
  - by rewrite String.eqb_refl.
  - destruct (String.eqb k' k) eqn:E; simpl; by rewrite E.
Qed.

Lemma dict_get_setitem_ne {V} (k k' : string) (v : V) d :
  k <> k' -> dict_get k' (dict_setitem k v d) = dict_get k' d.
Proof.
  intros Hne. induction d as [|[k0 v0] d IH]; simpl.
  - apply String.eqb_neq in Hne. by rewrite Hne.
  - destruct (String.eqb k0 k) eqn:E; simpl; [|by rewrite IH].
    apply String.eqb_eq in E as ->.
    apply String.eqb_neq in Hne. by rewrite Hne.
Qed.

(** Assigning to a key that is not there appends the item. *)
Lemma dict_setitem_fresh {V} (k : string) (v : V) d :
  k ∉ d.*1 -> dict_setitem k v d = (d ++ [(k, v)])%list.
Proof.
  induction d as [|[k' v'] d IH]; intros Hk; simpl; [done|].
  simpl in Hk. apply not_elem_of_cons in Hk as [Hne Hk].
  assert (E : String.eqb k' k = false) by (by apply String.eqb_neq).
  rewrite E. by rewrite IH.
Qed.

(** *** The dict of one row *)

(** A header that does not occur leaves the dict as it was. *)
Lemma to_dict_cells_other (row : list string) (hs : list string) k d h :
  h ∉ hs -> dict_get h (foldl (to_dict_cell row) d (enumerate k hs)) = dict_get h d.
Proof.
  revert k d. induction hs as [|h' hs IH]; intros k d Hnot; simpl; [done|].
  apply not_elem_of_cons in Hnot as [Hne Hnot].
  rewrite IH by done. by rewrite dict_get_setitem_ne.
Qed.

(** The value stored under a header is the cell at the header's last
    position, or the empty string when the row is too short. *)
Lemma to_dict_cells_last (row : list string) (hs : list string) k d i h :
  hs !! i = Some h ->
  (forall j, (i < j)%nat -> hs !! j <> Some h) ->
  dict_get h (foldl (to_dict_cell row) d (enumerate k hs))
  = Some (default "" (row !! (k + i)%nat)).
Proof.
  revert k d i. induction hs as [|h' hs IH]; intros k d i Hi Hlast; [done|].
  destruct i as [|i]; simpl in *.
  - simplify_eq. rewrite to_dict_cells_other.
    + rewrite dict_get_setitem_eq, getitem_or_empty. by rewrite Nat.add_0_r.
    + intros Hin. apply list_elem_of_lookup in Hin as [j Hj].
      apply (Hlast (S j)); [lia | done].
  - rewrite (IH (S k) _ i Hi).
    + do 3 f_equal. lia.
    + intros j Hj. apply (Hlast (S j)). lia.
Qed.

(** Distinct headers not yet in the dict are appended in their order. *)
Lemma to_dict_cells_distinct (row : list string) (hs : list string) k d :
  NoDup hs ->
  (forall h, h ∈ hs -> h ∉ d.*1) ->
  foldl (to_dict_cell row) d (enumerate k hs)
  = (d ++ zip hs (map (fun i => default "" (row !! i)) (seq k (length hs))))%list.
Proof.
  revert k d. induction hs as [|h hs IH]; intros k d Hnd Hfresh; simpl.
  - by rewrite app_nil_r.
  - apply NoDup_cons in Hnd as [Hh Hnd].
    rewrite dict_setitem_fresh by (apply Hfresh; left).
    rewrite IH; [|done|].
    + rewrite getitem_or_empty. by rewrite <- app_assoc.
    + intros h' Hin. rewrite fmap_app. simpl. intros Hx.
      apply elem_of_app in Hx as [Hx|Hx].
      * by apply (Hfresh h'); [right|].
      * apply list_elem_of_singleton in Hx. by subst.
Qed.

Lemma pad_and_drop_cells (n : nat) (row : list string) :
  pad_and_drop n row = map (fun i => default "" (row !! i)) (seq 0 n).
Proof.
  unfold pad_and_drop. apply list_eq. intros i.
  rewrite list_lookup_fmap.
  destruct (decide (i < n)%nat) as [Hlt|Hge].
  - rewrite lookup_take_lt by done. rewrite lookup_seq_lt by done. simpl.
    destruct (decide (i < length row)%nat) as [Hr|Hr].
    + rewrite lookup_app_l by done.
      destruct (lookup_lt_is_Some_2 row i Hr) as [v Hv]. by rewrite Hv.
    + rewrite lookup_app_r by lia.
      rewrite (lookup_ge_None_2 row i) by lia. simpl.
      apply lookup_replicate_2. lia.
  - rewrite lookup_take_ge by lia. by rewrite lookup_seq_ge by lia.
Qed.

Lemma to_dict_row_keys (hs row : list string) (h : string) :
  h ∉ hs -> dict_get h (to_dict_row hs row) = None.
Proof. intros H. unfold to_dict_row. by rewrite to_dict_cells_other. Qed.

Lemma to_dict_row_value (hs row : list string) (i : nat) (h : string) :
  hs !! i = Some h ->
  (forall j, (i < j)%nat -> hs !! j <> Some h) ->
  dict_get h (to_dict_row hs row) = Some (default "" (row !! i)).
Proof. intros Hi Hlast. unfold to_dict_row. by rewrite (to_dict_cells_last row hs 0 [] i h). Qed.

(** With distinct headers the loop computes the keyed row of the
    specification. *)
Lemma to_dict_row_keyed (hs row : list string) :
  NoDup hs -> to_dict_row hs row = keyed_row hs row.
Proof.
  intros Hnd. unfold to_dict_row, keyed_row.
  rewrite to_dict_cells_distinct; [|done|intros h _; apply not_elem_of_nil].
  by rewrite pad_and_drop_cells.
Qed.

(** C6, as stated, at a table with rows but no header: the row [x, y] is
    longer than the (empty) header list, yet [to_dict] holds no dict for
    it, not even an empty one. *)
Lemma C6_headerless_row_gets_no_dict :
  headers Demo.headerless = [] /\
  rows Demo.headerless !! 0%nat = Some ["x"; "y"] /\
  to_dict Demo.headerless !! 0%nat = None /\
  to_dict Demo.headerless = [].
Proof. repeat split. Qed.

(** C6, amended: for every table with at least one header and every row
    of it, [to_dict] has one dict per row, in row order. With distinct
    headers the dict of a row pairs the headers, in their order, with the
    row padded with empty strings and cut to the number of headers. In
    general the dict has the headers as its only keys, and under a header
    it holds the row's cell at the header's position when the row reaches
    that far, and the empty string when the row is shorter (for a header
    written twice, the position is its last one, since the later
    assignment replaces the earlier). *)
Theorem C6_to_dict_pads_and_drops (t : Table) (r : nat) (row : list string) :
  headers t <> [] ->
  rows t !! r = Some row ->
  length (to_dict t) = length (rows t) /\
  exists d : list (string * string),
    to_dict t !! r = Some d /\
    (NoDup (headers t) ->
     d = zip (headers t) (pad_and_drop (length (headers t)) row)) /\
    (forall h, h ∉ headers t -> dict_get h d = None) /\
    (forall i h,
        headers t !! i = Some h ->
        (forall j, (i < j)%nat -> headers t !! j <> Some h) ->
        ((i < length row)%nat -> dict_get h d = row !! i) /\
        ((length row <= i)%nat -> dict_get h d = Some "")).
Proof.
  intros Hh Hr.
  assert (Hrows : rows t <> []) by (intros E; by rewrite E in Hr).
  rewrite (to_dict_unfold t Hh Hrows). split; [by rewrite length_map|].
  exists (to_dict_row (headers t) row). split.
  { by rewrite list_lookup_fmap, Hr. }
  split; [apply to_dict_row_keyed|].
  split; [intros h; apply to_dict_row_keys|].
  intros i h Hi Hlast. rewrite (to_dict_row_value _ row i h Hi Hlast). split.
  - intros Hlt. destruct (lookup_lt_is_Some_2 row i Hlt) as [v Hv]. by rewrite Hv.
  - intros Hge. by rewrite (lookup_ge_None_2 row i Hge).
Qed.

(** The two rows of the claim's example: headers [A, B, C], rows [x, y]
    and [x, y, z, w]. *)
Example C6_ragged_rows :
  to_dict Demo.ragged =
  [ [("A", "x"); ("B", "y"); ("C", "")];
    [("A", "x"); ("B", "y"); ("C", "z")] ].
Proof. reflexivity. Qed.

Lemma C6_to_dict_pads_and_drops_witness :
  length (to_dict Demo.ragged) = 2%nat /\
  exists d : list (string * string),
    to_dict Demo.ragged !! 1%nat = Some d /\
    (NoDup ["A"; "B"; "C"] -> d = [("A", "x"); ("B", "y"); ("C", "z")]) /\
    (forall h, h ∉ ["A"; "B"; "C"] -> dict_get h d = None) /\
    (forall i h,
        ["A"; "B"; "C"] !! i = Some h ->
        (forall j, (i < j)%nat -> ["A"; "B"; "C"] !! j <> Some h) ->
        ((i < 4)%nat -> dict_get h d = ["x"; "y"; "z"; "w"] !! i) /\
        ((4 <= i)%nat -> dict_get h d = Some "")).
Proof.
  apply (C6_to_dict_pads_and_drops Demo.ragged 1 ["x"; "y"; "z"; "w"]).
  - discriminate.
  - reflexivity.
Defined.

(** C10: a table whose header list is empty, or whose row list is empty,
    renders to the empty list; rows without headers give no keyed rows. *)
Theorem C10_to_dict_without_headers_or_rows (t : Table) :
  headers t = [] \/ rows t = [] -> to_dict t = [].
Proof.
  intros [H|H]; unfold to_dict; rewrite H; [done|].
  by destruct (headers t).
Qed.

Lemma C10_to_dict_without_headers_or_rows_witness :
  to_dict Demo.headerless = [].
Proof.
  apply (C10_to_dict_without_headers_or_rows Demo.headerless).
  left. reflexivity.
Defined.

(** ** Cached counts of the tables the parsers build *)

Lemma df_iter_rows_length (df : DataFrame) :
  length (df_iter_rows df) = df_height_nat df.
Proof. unfold df_iter_rows. by rewrite length_map, length_seq. Qed.

Lemma dataframe_table_counts (df : DataFrame) :
  counts_match (ExcelParser._dataframe_to_table df).
Proof.
  split; simpl.
  - by rewrite length_map, df_iter_rows_length.
  - unfold df_width, df_columns. by rewrite length_map.
Qed.

Lemma pdf_table_counts (table_data : list (list (option string))) :
  counts_match (PDFParser._convert_table table_data).
Proof. by destruct table_data. Qed.

Lemma word_table_counts (word_table : list (list string)) :
  counts_match (WordParser._parse_word_table word_table).
Proof. by destruct word_table. Qed.

(** C7: the table ExcelParser builds from a DataFrame, the table PDFParser
    builds from raw table data and the table WordParser builds from a Word
    table each have [num_rows = len(rows)] and [num_columns = len(headers)]. *)
Theorem C7_constructed_tables_cache_their_counts :
  (forall df : DataFrame,
      let t := ExcelParser._dataframe_to_table df in
      num_rows t = Z.of_nat (length (rows t)) /\
      num_columns t = Z.of_nat (length (headers t))) /\
  (forall table_data : list (list (option string)),
      let t := PDFParser._convert_table table_data in
      num_rows t = Z.of_nat (length (rows t)) /\
      num_columns t = Z.of_nat (length (headers t))) /\
  (forall word_table : list (list string),
      let t := WordParser._parse_word_table word_table in
      num_rows t = Z.of_nat (length (rows t)) /\
      num_columns t = Z.of_nat (length (headers t))).
Proof.
  split; [|split]; intros x.
  - apply dataframe_table_counts.
  - apply pdf_table_counts.
  - apply word_table_counts.
Qed.

(** ** universal_parser.py: the dispatcher *)

Section Dispatcher.
Variable w : World.
Variable ps : list BaseParser.Parser.

(** The loop returns the document of the first registered parser that
    matches and succeeds; every matching parser before it has failed. *)
Lemma try_parsers_Some (l : list BaseParser.Parser) (fp : string) (doc : ParsedDocument) :
  UniversalParser.try_parsers l fp = Some doc <->
  exists pre p post,
    l = (pre ++ p :: post)%list /\
    Forall (attempt_fails fp) pre /\
    BaseParser.can_parse p fp = true /\
    BaseParser.parse p fp = Return doc.
Proof.
  induction l as [|q l IH]; simpl.
  { split; [done|]. intros (pre & p & post & E & _). by destruct pre. }
  split.
  - destruct (BaseParser.can_parse q fp) eqn:Hc;
      [destruct (BaseParser.parse q fp) as [e|d] eqn:Hp|].
    + intros H. apply IH in H as (pre & p & post & -> & Hpre & Hm & Hd).
      exists (q :: pre), p, post. repeat split; try done.
      constructor; [|done]. intros _. by rewrite Hp.
    + intros [= ->]. by exists [], q, l.
    + intros H. apply IH in H as (pre & p & post & -> & Hpre & Hm & Hd).
      exists (q :: pre), p, post. repeat split; try done.
      constructor; [|done]. intros Hq. congruence.
  - intros (pre & p & post & E & Hpre & Hm & Hd).
    destruct pre as [|q' pre]; simplify_eq/=.
    + by rewrite Hm, Hd.
    + apply Forall_cons in Hpre as [Hq Hpre].
      assert (Hrec : UniversalParser.try_parsers (pre ++ p :: post) fp = Some doc).
      { apply IH. by exists pre, p, post. }
      unfold attempt_fails in Hq.
      destruct (BaseParser.can_parse q' fp); [|done].
      specialize (Hq eq_refl). by destruct (BaseParser.parse q' fp).
Qed.

(** The loop runs out exactly when every matching parser fails (which
    includes the case where none matches). *)
Lemma try_parsers_None (l : list BaseParser.Parser) (fp : string) :
  UniversalParser.try_parsers l fp = None <-> Forall (attempt_fails fp) l.
Proof.
  induction l as [|q l IH]; simpl; [split; [constructor | done]|].
  rewrite Forall_cons. unfold attempt_fails at 1.
  destruct (BaseParser.can_parse q fp).
  - destruct (BaseParser.parse q fp) as [e|d]; simpl.
    + rewrite IH. split; [by intros H | by intros [_ H]].
    + split; [done | intros [H _]; by destruct H].
  - rewrite IH. split; [by intros H | by intros [_ H]].
Qed.

(** An existing path: the first matching parser that succeeds decides. *)
Lemma parse_first_success (fp : string) pre p post doc :
  path_exists w (path_resolve w fp) = true ->
  ps = (pre ++ p :: post)%list ->
  Forall (attempt_fails (path_resolve w fp)) pre ->
  BaseParser.can_parse p (path_resolve w fp) = true ->
  BaseParser.parse p (path_resolve w fp) = Return doc ->
  UniversalParser.parse w ps fp = Return doc.
Proof.
  intros He -> Hpre Hm Hd. unfold UniversalParser.parse. rewrite He. simpl.
  assert (H : UniversalParser.try_parsers (pre ++ p :: post) (path_resolve w fp) = Some doc).
  { apply try_parsers_Some. by exists pre, p, post. }
  by rewrite H.
Qed.

(** An existing path on which every matching parser fails, or which no
    parser matches: the final [ValueError]. *)
Lemma parse_exhausted (fp : string) :
  path_exists w (path_resolve w fp) = true ->
  Forall (attempt_fails (path_resolve w fp)) ps ->
  UniversalParser.parse w ps fp
  = Raise (ValueError (UniversalParser.no_parser_message
                         (PathLib.suffix (path_resolve w fp)))).
Proof.
  intros He Hall. unfold UniversalParser.parse. rewrite He. simpl.
  apply try_parsers_None in Hall. by rewrite Hall.
Qed.

Lemma parse_multiple_map (paths : list string) :
  UniversalParser.parse_multiple w ps paths = map (batch_entry w ps) paths.
Proof.
  unfold UniversalParser.parse_multiple.
  enough (H : forall acc,
             foldl (fun results file_path =>
                      match UniversalParser.parse w ps file_path with
                      | Return doc => (results ++ [doc])%list
                      | Raise e =>
                          (results ++ [UniversalParser.error_document file_path e])%list
                      end) acc paths
             = (acc ++ map (batch_entry w ps) paths)%list) by apply H.
  induction paths as [|fp paths IH]; intros acc; simpl.
  - by rewrite app_nil_r.
  - rewrite IH.
    assert (E : match UniversalParser.parse w ps fp with
                | Return doc => (acc ++ [doc])%list
                | Raise e => (acc ++ [UniversalParser.error_document fp e])%list
                end = (acc ++ [batch_entry w ps fp])%list).
    { unfold batch_entry. by destruct (UniversalParser.parse w ps fp). }
    rewrite E. by rewrite <- app_assoc.
Qed.
End Dispatcher.

(** C2: [parse_multiple] returns one document per path, in the order of
    the paths; where [parse] returns, the entry is that document; where
    [parse] raises [e], the entry is a document for the path as given, of
    type UNKNOWN, with text ["Error: " + str(e)], no table, and the
    metadata [{'error': str(e)}]. The batch itself never raises. *)
Theorem C2_parse_multiple_one_entry_per_path
    (w : World) (ps : list BaseParser.Parser) (paths : list string) :
  length (UniversalParser.parse_multiple w ps paths) = length paths /\
  forall (i : nat) (fp : string),
    paths !! i = Some fp ->
    (forall doc,
        UniversalParser.parse w ps fp = Return doc ->
        UniversalParser.parse_multiple w ps paths !! i = Some doc) /\
    (forall e,
        UniversalParser.parse w ps fp = Raise e ->
        exists d,
          UniversalParser.parse_multiple w ps paths !! i = Some d /\
          file_path d = fp /\
          document_type d = UNKNOWN /\
          text d = "Error: " ++ str_exc e /\
          tables d = [] /\
          metadata d = <["error" := VStr (str_exc e)]> ∅).
Proof.
  rewrite parse_multiple_map. split; [by rewrite length_map|].
  intros i fp Hi. rewrite list_lookup_fmap, Hi. simpl. unfold batch_entry.
  split.
  - intros doc ->. done.
  - intros e ->. by eexists.
Qed.

(** The batch of the specification: a valid path, a missing one, a valid
    one. *)
Lemma C2_parse_multiple_one_entry_per_path_witness :
  length (UniversalParser.parse_multiple Demo.world Demo.parsers
            ["guide.pdf"; "missing.pdf"; "table.csv"]) = 3%nat /\
  exists d,
    UniversalParser.parse_multiple Demo.world Demo.parsers
      ["guide.pdf"; "missing.pdf"; "table.csv"] !! 1%nat = Some d /\
    file_path d = "missing.pdf" /\
    document_type d = UNKNOWN /\
    text d = "Error: File not found: /data/missing.pdf" /\
    tables d = [] /\
    metadata d = <["error" := VStr "File not found: /data/missing.pdf"]> ∅.
Proof.
  destruct (C2_parse_multiple_one_entry_per_path Demo.world Demo.parsers
              ["guide.pdf"; "missing.pdf"; "table.csv"]) as [Hlen Hentry].
  split; [exact Hlen|].
  destruct (Hentry 1%nat "missing.pdf" eq_refl) as [_ Herr].
  exact (Herr (ValueError "File not found: /data/missing.pdf") eq_refl).
Defined.

(** C3: when the resolved path does not exist, [parse] raises the
    [ValueError] "File not found: " followed by the resolved path,
    whatever parsers are registered; it returns no document. *)
Theorem C3_parse_missing_path_not_found
    (w : World) (ps : list BaseParser.Parser) (fp : string) :
  path_exists w (path_resolve w fp) = false ->
  UniversalParser.parse w ps fp
  = Raise (ValueError ("File not found: " ++ path_resolve w fp)) /\
  (forall doc, UniversalParser.parse w ps fp <> Return doc).
Proof.
  intros He. unfold UniversalParser.parse. rewrite He. by split.
Qed.

Lemma C3_parse_missing_path_not_found_witness :
  UniversalParser.parse Demo.world Demo.parsers "missing.pdf"
  = Raise (ValueError "File not found: /data/missing.pdf") /\
  (forall doc,
      UniversalParser.parse Demo.world Demo.parsers "missing.pdf" <> Return doc).
Proof.
  apply (C3_parse_missing_path_not_found Demo.world Demo.parsers "missing.pdf").
  reflexivity.
Defined.


(** ** excel_parser.py: the parser always hands back a document *)

Lemma try_except_reraise {A} (m : result A) : try_except m (fun e => Raise e) = m.
Proof. by destruct m. Qed.

Lemma returns_exists {A} (m : result A) : returns m <-> exists a, m = Return a.
Proof. destruct m; simpl; split; try done; [by intros [a ?] | by eexists]. Qed.

Create HintDb excel discriminated.

Section ExcelTotal.
Variable w : World.
Variable config : ParserConfig.

Lemma create_from_frame_returns fp df dt meta :
  returns (ExcelParser._create_document_from_dataframe w fp (PlFrame df) dt meta).
Proof. done. Qed.

Lemma parse_as_text_returns fp dt :
  returns (ExcelParser._parse_as_text w config fp dt).
Proof. unfold ExcelParser._parse_as_text. by destruct (open_read w fp (encoding config)). Qed.

Lemma parse_csv_returns fp : returns (ExcelParser._parse_csv w config fp).
Proof.
  unfold ExcelParser._parse_csv.
  destruct (pl_read_csv w fp ","); simpl; [apply parse_as_text_returns | done].
Qed.

Lemma parse_tsv_returns fp : returns (ExcelParser._parse_tsv w config fp).
Proof.
  unfold ExcelParser._parse_tsv.
  destruct (pl_read_csv w fp _); simpl; [apply parse_as_text_returns | done].
Qed.

Lemma parse_excel_fallback_returns fp :
  returns (ExcelParser._parse_excel_fallback w fp).
Proof.
  unfold ExcelParser._parse_excel_fallback.
  destruct (openpyxl_iter_rows w fp) as [e|sheet_rows]; simpl; [done|].
  by destruct sheet_rows.
Qed.

Lemma parse_excel_returns fp : returns (ExcelParser._parse_excel w fp).
Proof.
  unfold ExcelParser._parse_excel.
  destruct (pl_read_excel w fp) as [e|[df|sheets]]; simpl;
    [apply parse_excel_fallback_returns | done | apply parse_excel_fallback_returns].
Qed.

#[local] Hint Resolve parse_csv_returns parse_tsv_returns parse_excel_returns : excel.

Lemma excel_parse_valid fp :
  validate_file w config fp = true ->
  ExcelParser.parse w config fp =
    if String.eqb (get_file_extension fp) "csv" then ExcelParser._parse_csv w config fp
    else if String.eqb (get_file_extension fp) "tsv" then ExcelParser._parse_tsv w config fp
    else ExcelParser._parse_excel w fp.
Proof. intros Hv. unfold ExcelParser.parse. rewrite Hv. simpl. apply try_except_reraise. Qed.

Lemma excel_parse_returns fp :
  validate_file w config fp = true -> returns (ExcelParser.parse w config fp).
Proof.
  intros Hv. rewrite (excel_parse_valid fp Hv).
  repeat case_match; auto with excel.
Qed.

(** Delimited files: when the columnar read raises, the raw text is the
    document, or the read error as text. *)
Lemma delimited_degrades fp sep e :
  validate_file w config fp = true ->
  delimiter_for (get_file_extension fp) sep ->
  pl_read_csv w fp sep = Raise e ->
  ExcelParser.parse w config fp =
    match open_read w fp (encoding config) with
    | Return body => Return (text_only fp CSV body)
    | Raise e' => Return (text_only fp CSV ("Error reading file: " ++ str_exc e'))
    end.
Proof.
  intros Hv Hsep Hread. rewrite (excel_parse_valid fp Hv).
  destruct Hsep as [[-> ->]|[-> ->]]; simpl.
  - unfold ExcelParser._parse_csv. rewrite Hread. simpl.
    unfold ExcelParser._parse_as_text. by destruct (open_read w fp (encoding config)).
  - unfold ExcelParser._parse_tsv. rewrite Hread. simpl.
    unfold ExcelParser._parse_as_text. by destruct (open_read w fp (encoding config)).
Qed.

(** Workbooks: when the primary read fails and the openpyxl read raises,
    the document carries that error as its text. *)
Lemma workbook_degrades fp e :
  validate_file w config fp = true ->
  get_file_extension fp <> "csv" ->
  get_file_extension fp <> "tsv" ->
  excel_primary_fails w fp ->
  openpyxl_iter_rows w fp = Raise e ->
  ExcelParser.parse w config fp
  = Return (text_only fp EXCEL ("Error parsing Excel file: " ++ str_exc e)).
Proof.
  intros Hv Hcsv Htsv Hprim Hfall. rewrite (excel_parse_valid fp Hv).
  apply String.eqb_neq in Hcsv, Htsv. rewrite Hcsv, Htsv.
  unfold ExcelParser._parse_excel, excel_primary_fails in *.
  destruct (pl_read_excel w fp) as [e1|[df|sheets]]; simpl; try done;
    unfold ExcelParser._parse_excel_fallback; by rewrite Hfall.
Qed.
End ExcelTotal.

(** C4: on a path that passes [validate_file], [ExcelParser.parse] returns
    a document and does not raise. When the delimited read of a csv or tsv
    file raises, the document is the raw text of the file, or, if reading
    the text fails too, the text "Error reading file: " + that error; when
    the primary read of a workbook fails and the openpyxl read raises,
    the document is the text "Error parsing Excel file: " + that error. *)
Theorem C4_excel_parse_returns_a_document
    (w : World) (config : ParserConfig) (fp : string) :
  validate_file w config fp = true ->
  (exists doc, ExcelParser.parse w config fp = Return doc) /\
  (forall sep e,
      delimiter_for (get_file_extension fp) sep ->
      pl_read_csv w fp sep = Raise e ->
      (forall body,
          open_read w fp (encoding config) = Return body ->
          ExcelParser.parse w config fp = Return (text_only fp CSV body)) /\
      (forall e',
          open_read w fp (encoding config) = Raise e' ->
          ExcelParser.parse w config fp
          = Return (text_only fp CSV ("Error reading file: " ++ str_exc e')))) /\
  (forall e,
      get_file_extension fp <> "csv" ->
      get_file_extension fp <> "tsv" ->
      excel_primary_fails w fp ->
      openpyxl_iter_rows w fp = Raise e ->
      ExcelParser.parse w config fp
      = Return (text_only fp EXCEL ("Error parsing Excel file: " ++ str_exc e))).
Proof.
  intros Hv. split; [|split].
  - apply returns_exists. by apply excel_parse_returns.
  - intros sep e Hsep Hread.
    pose proof (delimited_degrades w config fp sep e Hv Hsep Hread) as H.
    split; [intros body Hb | intros e' He]; rewrite H; [by rewrite Hb | by rewrite He].
  - intros e. by apply workbook_degrades.
Qed.

(** A workbook that is not a zip archive: both reads fail. *)
Lemma C4_excel_parse_returns_a_document_witness :
  (exists doc, ExcelParser.parse Demo.world Demo.config "/data/broken.xlsx" = Return doc) /\
  ExcelParser.parse Demo.world Demo.config "/data/broken.xlsx"
  = Return (text_only "/data/broken.xlsx" EXCEL
              "Error parsing Excel file: File is not a zip file").
Proof.
  destruct (C4_excel_parse_returns_a_document Demo.world Demo.config
              "/data/broken.xlsx" eq_refl) as (Hdoc & _ & Hworkbook).
  split; [exact Hdoc|].
  apply (Hworkbook (OtherError "BadZipFile" "File is not a zip file")).
  - discriminate.
  - discriminate.
  - exact I.
  - reflexivity.
Defined.

(** ** pdf_parser.py *)

Section PdfParse.
Variable w : World.
Variable config : ParserConfig.

Lemma pdf_parse_valid fp :
  validate_file w config fp = true ->
  PDFParser.parse w config fp =
    match PDFParser._parse_with_pdfplumber w config fp with
    | Return doc => Return doc
    | Raise _ => PDFParser._parse_with_pypdf w fp
    end.
Proof.
  intros Hv. unfold PDFParser.parse. rewrite Hv. simpl.
  destruct (PDFParser._parse_with_pdfplumber w config fp); simpl; [|done].
  apply try_except_reraise.
Qed.

(** The page loop on pages that all give their text and, where tables are
    looked for, have none: the sections of the pages are appended, no
    table is added. *)
Lemma plumber_loop_no_table pages texts :
  Forall2 page_has_text pages texts ->
  Forall (fun p => extract_tables config = true -> page_has_no_table p) pages ->
  forall k all_text all_tables,
    PDFParser.plumber_loop config (enumerate k pages) all_text all_tables
    = Return ((all_text ++ page_sections_from k texts)%list, all_tables).
Proof.
  induction 1 as [|p t pages texts Ht _ IH]; intros Hnone k all_text all_tables.
  - simpl. by rewrite app_nil_r.
  - apply Forall_cons in Hnone as [Hp Hnone].
    cbn [enumerate PDFParser.plumber_loop]. rewrite Ht. cbn [bind].
    unfold page_sections_from. cbn [enumerate map concat fst snd].
    fold (page_sections_from (S k) texts).
    destruct (extract_tables config).
    + destruct (Hp eq_refl) as [-> | ->];
        cbn [bind PDFParser.page_tables List.filter map];
        rewrite app_nil_r, (IH Hnone); destruct (truthy_ostr t);
        by rewrite <- ?app_assoc.
    + rewrite (IH Hnone). destruct (truthy_ostr t); by rewrite <- ?app_assoc.
Qed.

(** The page loop of the fallback on pages that all give their text. *)
Lemma pypdf_loop_texts texts :
  forall k all_text,
    PDFParser.pypdf_loop (enumerate k (map Return texts)) all_text
    = Return (all_text ++ page_sections_from k texts)%list.
Proof.
  induction texts as [|t texts IH]; intros k all_text.
  - simpl. by rewrite app_nil_r.
  - cbn [map enumerate PDFParser.pypdf_loop bind]. rewrite IH.
    unfold page_sections_from. cbn [enumerate map concat fst snd].
    destruct (truthy_ostr t); by rewrite <- ?app_assoc.
Qed.

(** The fallback on a PDF the primary method fails on: no table, the same
    page sections, and the page count. *)
Lemma pdf_fallback_without_tables fp e reader texts :
  validate_file w config fp = true ->
  PDFParser._parse_with_pdfplumber w config fp = Raise e ->
  pypdf_open w fp = Return reader ->
  pypdf_pages reader = map Return texts ->
  exists doc,
    PDFParser.parse w config fp = Return doc /\
    tables doc = [] /\
    text doc = join (String (ascii_of_nat 10) "") (page_sections texts) /\
    metadata doc !! "pages" = Some (VInt (Z.of_nat (length texts))).
Proof.
  intros Hv Hprim Hopen Hpages.
  rewrite (pdf_parse_valid fp Hv), Hprim.
  unfold PDFParser._parse_with_pypdf. rewrite Hopen. cbn [bind].
  rewrite Hpages, pypdf_loop_texts, length_map. cbn [bind app].
  eexists. split; [reflexivity|]. repeat split.
  cbn [metadata create_parsed_document default].
  destruct (pypdf_metadata reader) as [info|]; [case_bool_decide|];
    reflexivity.
Qed.

Lemma page_sections_length texts k :
  length (page_sections_from k texts)
  = (2 * length (List.filter truthy_ostr texts))%nat.
Proof.
  revert k. induction texts as [|t texts IH]; intros k; [done|].
  unfold page_sections_from. cbn [enumerate map concat List.filter fst snd].
  fold (page_sections_from (S k) texts).
  destruct (truthy_ostr t); simpl; rewrite IH; lia.
Qed.
End PdfParse.

(** C5: on a valid path, when the pdfplumber method raises, the pypdf
    method is run and decides the outcome: its document is returned, and
    when it raises too, [PDFParser.parse] raises that error instead of
    returning any document. *)
Theorem C5_pdf_fallback_then_failure
    (w : World) (config : ParserConfig) (fp : string) (e : exc) :
  validate_file w config fp = true ->
  PDFParser._parse_with_pdfplumber w config fp = Raise e ->
  PDFParser.parse w config fp = PDFParser._parse_with_pypdf w fp /\
  (forall e2,
      PDFParser._parse_with_pypdf w fp = Raise e2 ->
      PDFParser.parse w config fp = Raise e2 /\
      forall doc, PDFParser.parse w config fp <> Return doc).
Proof.
  intros Hv Hprim. rewrite (pdf_parse_valid w config fp Hv), Hprim.
  split; [done|]. intros e2 ->. by split.
Qed.

(** A PDF neither reader can open. *)
Lemma C5_pdf_fallback_then_failure_witness :
  PDFParser.parse Demo.world Demo.config "/data/broken.pdf"
  = Raise (OtherError "PdfReadError" "EOF marker not found").
Proof.
  destruct (C5_pdf_fallback_then_failure Demo.world Demo.config "/data/broken.pdf"
              (OtherError "PDFSyntaxError" "No /Root object!") eq_refl eq_refl)
    as [_ Hfail].
  apply (Hfail (OtherError "PdfReadError" "EOF marker not found")).
  reflexivity.
Defined.

(** C8: for a valid PDF that pdfplumber opens, whose pages give the texts
    [texts] and hold no table (or with table extraction switched off),
    [PDFParser.parse] returns a PDF document
    with no table, whose text is the newline-joined sequence of, for each
    page with non-empty text in page order, the marker
    "\n--- Page N ---\n" (N the page's number, counted from 1 over all
    pages) followed by the page's text, and whose metadata is
    [{'pages': number of pages}]. There are as many markers as pages with
    text. *)
Theorem C8_pdf_without_tables
    (w : World) (config : ParserConfig) (fp : string)
    (pages : list PlumberPage) (texts : list (option string)) :
  validate_file w config fp = true ->
  pdfplumber_open w fp = Return pages ->
  Forall2 page_has_text pages texts ->
  extract_tables config = false \/ Forall page_has_no_table pages ->
  PDFParser.parse w config fp
  = Return {| file_path := fp; document_type := PDF;
              text := join (String (ascii_of_nat 10) "") (page_sections texts);
              tables := [];
              metadata := <["pages" := VInt (Z.of_nat (length pages))]> ∅;
              raw_content := None |} /\
  length (page_sections texts) = (2 * length (List.filter truthy_ostr texts))%nat.
Proof.
  intros Hv Hopen Htexts Hnone. split; [|apply page_sections_length].
  rewrite (pdf_parse_valid w config fp Hv).
  unfold PDFParser._parse_with_pdfplumber. rewrite Hopen. cbn [bind].
  rewrite (plumber_loop_no_table config pages texts Htexts); [done|].
  destruct Hnone as [Hoff|Hnone].
  - apply Forall_forall. intros p _ Hon. congruence.
  - eapply Forall_impl; [exact Hnone|]. by intros p Hp _.
Qed.

(** The three-page PDF of the concrete environment; its second page is
    empty. *)
Lemma C8_pdf_without_tables_witness :
  PDFParser.parse Demo.world Demo.config "/data/guide.pdf"
  = Return {| file_path := "/data/guide.pdf"; document_type := PDF;
              text := Demo.LF ++ "--- Page 1 ---" ++ Demo.LF ++ Demo.LF ++ "Alpha"
                      ++ Demo.LF ++ Demo.LF ++ "--- Page 3 ---" ++ Demo.LF
                      ++ Demo.LF ++ "Gamma";
              tables := [];
              metadata := <["pages" := VInt 3]> ∅;
              raw_content := None |} /\
  length (page_sections [Some "Alpha"; Some ""; Some "Gamma"]) = 4%nat.
Proof.
  apply (C8_pdf_without_tables Demo.world Demo.config "/data/guide.pdf"
           Demo.guide_pages [Some "Alpha"; Some ""; Some "Gamma"]).
  - reflexivity.
  - reflexivity.
  - repeat constructor.
  - right.
    apply Forall_cons; split; [right; reflexivity|].
    apply Forall_cons; split; [right; reflexivity|].
    apply Forall_cons; split; [left; reflexivity|].
    apply Forall_nil. exact I.
Defined.

(** ** text_parser.py *)

Section TextParse.
Variable w : World.
Variable config : ParserConfig.

Lemma read_with_returns fp enc body :
  open_read w fp enc = Return body ->
  TextParser.read_with w fp enc = Return (text_document fp enc body).
Proof.
  intros H. unfold TextParser.read_with, text_document, create_parsed_document.
  rewrite H. reflexivity.
Qed.

Lemma read_with_raises fp enc :
  raises (open_read w fp enc) -> raises (TextParser.read_with w fp enc).
Proof. unfold TextParser.read_with. by destruct (open_read w fp enc). Qed.

(** The retries stop at the first encoding that reads the file. *)
Lemma retry_first_success fp pre enc post body :
  all_reads_fail w fp pre ->
  open_read w fp enc = Return body ->
  TextParser.retry w fp (pre ++ enc :: post) = Return (text_document fp enc body).
Proof.
  intros Hpre Henc. induction Hpre as [|enc' pre Hfail _ IH]; simpl.
  - by rewrite (read_with_returns fp enc body Henc).
  - apply read_with_raises in Hfail.
    by destruct (TextParser.read_with w fp enc').
Qed.

(** When every retry fails, the loop ends and the final error is raised. *)
Lemma retry_all_fail fp encs :
  all_reads_fail w fp encs ->
  TextParser.retry w fp encs
  = Raise (ValueError ("Could not decode text file: " ++ fp)).
Proof.
  induction 1 as [|enc encs Hfail _ IH]; simpl; [done|].
  apply read_with_raises in Hfail.
  by destruct (TextParser.read_with w fp enc).
Qed.

Lemma text_parse_decode_error fp msg :
  validate_file w config fp = true ->
  open_read w fp (encoding config) = Raise (UnicodeDecodeError msg) ->
  TextParser.parse w config fp = TextParser.retry w fp TextParser.fallback_encodings.
Proof.
  intros Hv Hread. unfold TextParser.parse. rewrite Hv. simpl.
  unfold TextParser.read_with at 1. by rewrite Hread.
Qed.
End TextParse.

(** C9: on a valid path, [TextParser.parse] reads with the configured
    encoding first and, when that read returns, returns the text with the
    metadata [encoding] (the configured one), [lines] and [characters].
    When that read raises a UnicodeDecodeError, the encodings latin-1,
    cp1252, iso-8859-1 are tried in this order: the first that reads the
    file gives the document, with that encoding in the metadata; when all
    three fail, the call raises ValueError "Could not decode text file: "
    followed by the path. *)
Theorem C9_text_parse_tries_encodings_in_order
    (w : World) (config : ParserConfig) (fp : string) :
  validate_file w config fp = true ->
  (forall body,
      open_read w fp (encoding config) = Return body ->
      TextParser.parse w config fp
      = Return (text_document fp (encoding config) body)) /\
  (forall msg,
      open_read w fp (encoding config) = Raise (UnicodeDecodeError msg) ->
      (forall pre enc post body,
          ["latin-1"; "cp1252"; "iso-8859-1"] = (pre ++ enc :: post)%list ->
          all_reads_fail w fp pre ->
          open_read w fp enc = Return body ->
          TextParser.parse w config fp = Return (text_document fp enc body)) /\
      (all_reads_fail w fp ["latin-1"; "cp1252"; "iso-8859-1"] ->
       TextParser.parse w config fp
       = Raise (ValueError ("Could not decode text file: " ++ fp)))).
Proof.
  intros Hv. split.
  - intros body Hb. unfold TextParser.parse. rewrite Hv. simpl.
    by rewrite (read_with_returns w fp _ body Hb).
  - intros msg Hdec. rewrite (text_parse_decode_error w config fp msg Hv Hdec).
    unfold TextParser.fallback_encodings. split.
    + intros pre enc post body -> Hpre Henc. by apply retry_first_success.
    + apply retry_all_fail.
Qed.

(** A Latin-1 file read with the default configuration: utf-8 fails to
    decode it, latin-1 reads it. *)
Lemma C9_text_parse_tries_encodings_in_order_witness :
  TextParser.parse Demo.world Demo.config "/data/legacy.txt"
  = Return (text_document "/data/legacy.txt" "latin-1"
              ("caf" ++ String (ascii_of_nat 233) "" ++ Demo.LF ++ "menu" ++ Demo.LF)).
Proof.
  destruct (C9_text_parse_tries_encodings_in_order Demo.world Demo.config
              "/data/legacy.txt" eq_refl) as [_ Hretry].
  destruct (Hretry "'utf-8' codec can't decode byte 0xe9" eq_refl) as [Hfirst _].
  apply (Hfirst [] "latin-1" ["cp1252"; "iso-8859-1"]).
  - reflexivity.
  - apply Forall_nil. exact I.
  - reflexivity.
Defined.

(** * Further properties *)

#[local] Set Warnings "-clear-no-such-hyp".

(** ** base_parser.py: [get_file_extension] *)

Lemma lower_ascii_idem (c : ascii) : lower_ascii (lower_ascii c) = lower_ascii c.
Proof. destruct c as [[] [] [] [] [] [] [] []]; reflexivity. Qed.

Lemma lower_ascii_dot (c : ascii) : Ascii.eqb (lower_ascii c) "." = Ascii.eqb c ".".
Proof. destruct c as [[] [] [] [] [] [] [] []]; reflexivity. Qed.

Lemma lower_ascii_slash (c : ascii) : Ascii.eqb (lower_ascii c) "/" = Ascii.eqb c "/".
Proof. destruct c as [[] [] [] [] [] [] [] []]; reflexivity. Qed.

Lemma lower_idem (s : string) : lower (lower s) = lower s.
Proof. induction s as [|c s IH]; simpl; [done|]. by rewrite lower_ascii_idem, IH. Qed.

Lemma lower_length (s : string) : String.length (lower s) = String.length s.
Proof. induction s as [|c s IH]; simpl; [done|]. by rewrite IH. Qed.

Lemma lower_substring (s : string) (n m : nat) :
  String.substring n m (lower s) = lower (String.substring n m s).
Proof.
  revert n m. induction s as [|c s IH]; intros [|n] [|m]; simpl;
    first [done | by rewrite IH | apply IH].
Qed.

Lemma lower_eqb_empty (s : string) : String.eqb (lower s) "" = String.eqb s "".
Proof. by destruct s. Qed.

Lemma lower_eqb_dot (s : string) : String.eqb (lower s) "." = String.eqb s ".".
Proof.
  destruct s as [|c [|c' s]]; simpl; try done.
  - rewrite lower_ascii_dot. done.
  - rewrite lower_ascii_dot. by destruct (Ascii.eqb c ".").
Qed.

Lemma split_on_lower (s : string) :
  PathLib.split_on "/" (lower s) = map lower (PathLib.split_on "/" s).
Proof.
  induction s as [|c s IH]; simpl; [done|].
  rewrite lower_ascii_slash, IH.
  destruct (Ascii.eqb c "/"); [done|].
  by destruct (PathLib.split_on "/" s).
Qed.

Lemma last_map {A B} (f : A -> B) (l : list A) (d : A) :
  List.last (map f l) (f d) = f (List.last l d).
Proof. induction l as [|x [|y l] IH]; simpl in *; done. Qed.

Lemma name_lower (p : string) : PathLib.name (lower p) = lower (PathLib.name p).
Proof.
  unfold PathLib.name, PathLib.parts. rewrite split_on_lower.
  assert (E : forall l,
             List.filter (fun x => negb (String.eqb x "" || String.eqb x "."))
                         (map lower l)
             = map lower (List.filter
                            (fun x => negb (String.eqb x "" || String.eqb x ".")) l)).
  { induction l as [|x l IH]; [done|].
    cbn [map List.filter]. rewrite lower_eqb_empty, lower_eqb_dot, IH.
    by destruct (negb _). }
  rewrite E. exact (last_map lower _ "").
Qed.

Lemma rfind_dot_lower (s : string) (pos : nat) :
  PathLib.rfind_dot (lower s) pos = PathLib.rfind_dot s pos.
Proof.
  revert pos. induction s as [|c s IH]; intros pos; simpl; [done|].
  by rewrite IH, lower_ascii_dot.
Qed.

Lemma suffix_lower (p : string) : PathLib.suffix (lower p) = lower (PathLib.suffix p).
Proof.
  unfold PathLib.suffix. rewrite name_lower, rfind_dot_lower, lower_length.
  destruct (PathLib.rfind_dot (PathLib.name p) 0) as [i|]; [|done].
  destruct (_ && _); [|done]. apply lower_substring.
Qed.

(** X1: for a path written with characters below code point 256 (the
    strings of this model, where [str.lower] works letter by letter),
    the extension does not depend on the case of the letters, and so
    neither do the [can_parse] tests of the parsers nor [detect_format]. *)
Theorem X1_extension_ignores_case (w : World) (config : ParserConfig) (fp : string) :
  get_file_extension (lower fp) = get_file_extension fp /\
  PDFParser.can_parse (lower fp) = PDFParser.can_parse fp /\
  ExcelParser.can_parse (lower fp) = ExcelParser.can_parse fp /\
  TextParser.can_parse (lower fp) = TextParser.can_parse fp /\
  UniversalParser.can_parse (UniversalParser.registered w config) (lower fp)
  = UniversalParser.can_parse (UniversalParser.registered w config) fp /\
  UniversalParser.detect_format (lower fp) = UniversalParser.detect_format fp.
Proof.
  assert (E : get_file_extension (lower fp) = get_file_extension fp).
  { unfold get_file_extension. by rewrite suffix_lower, lower_idem. }
  repeat split; try done.
  - unfold PDFParser.can_parse. by rewrite E.
  - unfold ExcelParser.can_parse. by rewrite E.
  - unfold TextParser.can_parse. by rewrite E.
  - unfold UniversalParser.can_parse, UniversalParser.registered. simpl.
    unfold PDFParser.can_parse, ExcelParser.can_parse. by rewrite E.
  - unfold UniversalParser.detect_format. by rewrite suffix_lower, lower_idem.
Qed.

Lemma substring_all (s : string) : String.substring 0 (String.length s) s = s.
Proof. induction s as [|c s IH]; simpl; [done|]. by rewrite IH. Qed.

(** Where [rfind] finds the last dot, the rest of the string is that dot
    followed by characters without a dot. *)
Lemma rfind_dot_Some (s : string) (pos i : nat) :
  PathLib.rfind_dot s pos = Some i ->
  (pos <= i)%nat /\
  exists rest,
    String.substring (i - pos) (String.length s - (i - pos)) s = String "." rest /\
    PathLib.rfind_dot rest (S i) = None.
Proof.
  revert pos. induction s as [|c s IH]; intros pos; simpl; [done|].
  destruct (PathLib.rfind_dot s (S pos)) as [j|] eqn:Hrec.
  - intros [= ->]. destruct (IH (S pos) Hrec) as (Hle & rest & Hsub & Hnone).
    split; [lia|]. exists rest. split; [|done].
    replace (i - pos)%nat with (S (i - S pos)) by lia. simpl. exact Hsub.
  - destruct (Ascii.eqb_spec c ".") as [->|]; [|done]. intros [= ->].
    split; [lia|]. exists s. rewrite Nat.sub_diag. simpl.
    by rewrite substring_all.
Qed.

Lemma rfind_dot_shift (s : string) (pos pos' : nat) :
  PathLib.rfind_dot s pos = None -> PathLib.rfind_dot s pos' = None.
Proof.
  revert pos pos'. induction s as [|c s IH]; intros pos pos'; simpl; [done|].
  destruct (PathLib.rfind_dot s (S pos)) eqn:E; [done|].
  rewrite (IH _ (S pos') E). by destruct (Ascii.eqb c ".").
Qed.

Lemma rfind_dot_None_get (s : string) (pos n : nat) :
  PathLib.rfind_dot s pos = None -> String.get n s <> Some "."%char.
Proof.
  revert pos n. induction s as [|c s IH]; intros pos n; simpl; [by destruct n|].
  destruct (PathLib.rfind_dot s (S pos)) eqn:E; [done|].
  destruct (Ascii.eqb_spec c ".") as [->|Hc]; [done|]. intros _.
  destruct n as [|n]; [congruence|]. by apply (IH (S pos)).
Qed.

Lemma lstrip_dot_no_dot (s : string) :
  PathLib.rfind_dot s 0 = None -> lstrip_dot s = s.
Proof.
  destruct s as [|c s]; simpl; [done|].
  destruct (PathLib.rfind_dot s 1); [done|]. by destruct (Ascii.eqb c ".").
Qed.

(** The suffix of a path is empty, or a dot followed by characters without
    a dot. *)
Lemma suffix_shape (p : string) :
  PathLib.suffix p = "" \/
  exists rest, PathLib.suffix p = String "." rest /\ PathLib.rfind_dot rest 0 = None.
Proof.
  unfold PathLib.suffix.
  destruct (PathLib.rfind_dot (PathLib.name p) 0) as [i|] eqn:E; [|by left].
  destruct (_ && _); [|by left]. right.
  destruct (rfind_dot_Some _ 0 i E) as (_ & rest & Hsub & Hnone).
  rewrite Nat.sub_0_r in Hsub. exists rest. split; [done|].
  by apply (rfind_dot_shift rest (S i)).
Qed.

(** X2: an extension holds no dot and no upper-case letter A-Z. *)
Theorem X2_extension_is_lower_case_without_dot (fp : string) :
  lower (get_file_extension fp) = get_file_extension fp /\
  forall n, String.get n (get_file_extension fp) <> Some "."%char.
Proof.
  unfold get_file_extension.
  destruct (suffix_shape fp) as [->|(rest & -> & Hnone)]; simpl.
  { split; [done|]. by intros []. }
  assert (Hlow : PathLib.rfind_dot (lower rest) 0 = None)
    by (by rewrite rfind_dot_lower).
  rewrite (lstrip_dot_no_dot _ Hlow). split; [apply lower_idem|].
  intros n. by apply (rfind_dot_None_get _ 0).
Qed.

(** ** universal_parser.py: what the dispatcher raises and returns *)

(** X3: once the path has been resolved and found to exist, whatever the
    registered parsers raise, [UniversalParser.parse] raises only its own
    "No parser available" error with the suffix of the resolved path, and
    then every matching parser has failed: the error of a parser never
    reaches the caller. *)
Theorem X3_dispatcher_hides_parser_errors
    (w : World) (ps : list BaseParser.Parser) (fp : string) (e : exc) :
  path_exists w (path_resolve w fp) = true ->
  UniversalParser.parse w ps fp = Raise e ->
  Forall (attempt_fails (path_resolve w fp)) ps /\
  e = ValueError (UniversalParser.no_parser_message
                    (PathLib.suffix (path_resolve w fp))).
Proof.
  intros He. unfold UniversalParser.parse. rewrite He. simpl.
  destruct (UniversalParser.try_parsers ps (path_resolve w fp)) eqn:Htry; [done|].
  intros [= <-]. split; [|done]. by apply try_parsers_None.
Qed.

(** A PDF on which both readers fail: the caller sees "No parser
    available for file type: .pdf", not the reader's error. *)
Lemma X3_dispatcher_hides_parser_errors_witness :
  PDFParser.parse Demo.world Demo.config "/data/broken.pdf"
  = Raise (OtherError "PdfReadError" "EOF marker not found") /\
  Forall (attempt_fails "/data/broken.pdf") Demo.parsers /\
  ValueError (UniversalParser.no_parser_message ".pdf")
  = ValueError (UniversalParser.no_parser_message
                  (PathLib.suffix (path_resolve Demo.world "broken.pdf"))).
Proof.
  split; [reflexivity|].
  apply (X3_dispatcher_hides_parser_errors Demo.world Demo.parsers "broken.pdf").
  - reflexivity.
  - vm_compute. reflexivity.
Defined.

Lemma registered_refuse_invalid (w : World) (config : ParserConfig) (fp : string) :
  validate_file w config fp = false ->
  Forall (attempt_fails fp) (UniversalParser.registered w config).
Proof.
  intros Hv. unfold UniversalParser.registered.
  repeat constructor; intros _; simpl.
  - unfold PDFParser.parse. by rewrite Hv.
  - unfold ExcelParser.parse. by rewrite Hv.
Qed.

(** X4: with the parsers [__init__] registers, a path that exists but
    fails [validate_file] (a directory, a file over the size limit) is
    reported as "No parser available for file type", whatever its
    extension. *)
Theorem X4_invalid_file_reported_as_unsupported
    (w : World) (config : ParserConfig) (fp : string) :
  path_exists w (path_resolve w fp) = true ->
  validate_file w config (path_resolve w fp) = false ->
  UniversalParser.parse w (UniversalParser.registered w config) fp
  = Raise (ValueError (UniversalParser.no_parser_message
                         (PathLib.suffix (path_resolve w fp)))).
Proof.
  intros He Hv. apply parse_exhausted; [done|].
  by apply registered_refuse_invalid.
Qed.

(** A directory whose name ends in [.tsv]. *)
Lemma X4_invalid_file_reported_as_unsupported_witness :
  UniversalParser.parse Demo.world (UniversalParser.registered Demo.world Demo.config)
    "export.tsv"
  = Raise (ValueError (UniversalParser.no_parser_message ".tsv")).
Proof.
  apply (X4_invalid_file_reported_as_unsupported Demo.world Demo.config "export.tsv").
  - reflexivity.
  - reflexivity.
Defined.

(** Every document of the PDF parser is a PDF document for the path it
    was given. *)
Lemma pdf_doc_shape (w : World) (config : ParserConfig) (fp : string) (doc : ParsedDocument) :
  PDFParser.parse w config fp = Return doc ->
  file_path doc = fp /\ document_type doc = PDF.
Proof.
  unfold PDFParser.parse, PDFParser._parse_with_pdfplumber, PDFParser._parse_with_pypdf.
  unfold try_except, bind.
  intros H. repeat (case_match; simpl in *; simplify_eq); done.
Qed.

(** Every document of the tabular parser is for the path it was given, of
    the type its extension asks for, with at most one table. *)
Lemma excel_doc_shape (w : World) (config : ParserConfig) (fp : string) (doc : ParsedDocument) :
  ExcelParser.parse w config fp = Return doc ->
  file_path doc = fp /\
  document_type doc = tabular_type (get_file_extension fp) /\
  (length (tables doc) <= 1)%nat /\
  Forall counts_match (tables doc).
Proof.
  unfold ExcelParser.parse, ExcelParser._parse_csv, ExcelParser._parse_tsv,
    ExcelParser._parse_excel, ExcelParser._parse_excel_fallback,
    ExcelParser._parse_as_text, ExcelParser._create_document_from_dataframe,
    tabular_type, try_except, bind.
  intros H.
  repeat (case_match; simpl in *; simplify_eq);
    repeat split; simpl; try lia;
    first [ by apply Forall_nil
          | apply Forall_cons; split; [apply dataframe_table_counts | by apply Forall_nil] ].
Qed.

Lemma detect_format_ext (p : string) (ext : string) :
  get_file_extension p = ext ->
  UniversalParser.detect_format p
  = default UNKNOWN
      (snd <$> List.find (fun kv => String.eqb (fst kv) ext) UniversalParser.format_map).
Proof. intros <-. reflexivity. Qed.

Lemma registered_result_shape
    (w : World) (config : ParserConfig) (fp : string) (doc : ParsedDocument) :
  UniversalParser.parse w (UniversalParser.registered w config) fp = Return doc ->
  file_path doc = path_resolve w fp /\
  document_type doc = UniversalParser.detect_format (path_resolve w fp) /\
  document_type doc <> UNKNOWN.
Proof.
  unfold UniversalParser.parse.
  destruct (path_exists w (path_resolve w fp)); simpl; [|done].
  set (rp := path_resolve w fp).
  destruct (PDFParser.can_parse rp) eqn:Hpdf.
  - apply String.eqb_eq in Hpdf.
    destruct (PDFParser.parse w config rp) as [e|d] eqn:Hp.
    + destruct (ExcelParser.can_parse rp) eqn:Hx; [|done].
      unfold ExcelParser.can_parse in Hx. rewrite Hpdf in Hx. done.
    + intros [= <-]. destruct (pdf_doc_shape w config rp d Hp) as [-> ->].
      rewrite (detect_format_ext rp "pdf" Hpdf). done.
  - destruct (ExcelParser.can_parse rp) eqn:Hx; [|done].
    destruct (ExcelParser.parse w config rp) as [e|d] eqn:Hp; [done|].
    intros [= <-].
    destruct (excel_doc_shape w config rp d Hp) as (-> & -> & _).
    unfold ExcelParser.can_parse in Hx. apply bool_decide_eq_true in Hx.
    rewrite (detect_format_ext rp _ eq_refl).
    unfold ExcelParser.SUPPORTED_EXTENSIONS in Hx.
    repeat (apply elem_of_cons in Hx as [-> | Hx]; [done|]).
    by apply elem_of_nil in Hx.
Qed.

(** X5: with the registered parsers, a document [UniversalParser.parse]
    returns carries the resolved path, and its type is the one
    [detect_format] gives for the resolved path; it is never UNKNOWN. *)
Theorem X5_returned_type_is_detected_format
    (w : World) (config : ParserConfig) (fp : string) (doc : ParsedDocument) :
  UniversalParser.parse w (UniversalParser.registered w config) fp = Return doc ->
  file_path doc = path_resolve w fp /\
  document_type doc = UniversalParser.detect_format (path_resolve w fp) /\
  document_type doc <> UNKNOWN.
Proof. apply registered_result_shape. Qed.

Lemma X5_returned_type_is_detected_format_witness :
  exists doc,
    UniversalParser.parse Demo.world (UniversalParser.registered Demo.world Demo.config)
      "table.csv" = Return doc /\
    file_path doc = "/data/table.csv" /\
    document_type doc = CSV.
Proof.
  eexists. split; [reflexivity|].
  destruct (X5_returned_type_is_detected_format Demo.world Demo.config "table.csv" _
              eq_refl) as (Hpath & Htype & _).
  split; [exact Hpath | exact Htype].
Defined.

(** X6: with the registered parsers, [can_parse] accepts a path exactly
    when its extension is one of [get_supported_formats()]. *)
Theorem X6_can_parse_iff_extension_supported
    (w : World) (config : ParserConfig) (fp : string) :
  UniversalParser.can_parse (UniversalParser.registered w config) fp = true <->
  get_file_extension fp
  ∈ UniversalParser.get_supported_formats (UniversalParser.registered w config).
Proof.
  change (UniversalParser.get_supported_formats (UniversalParser.registered w config))
    with ["csv"; "pdf"; "tsv"; "xls"; "xlsx"].
  unfold UniversalParser.can_parse, UniversalParser.registered. simpl.
  unfold PDFParser.can_parse, ExcelParser.can_parse, ExcelParser.SUPPORTED_EXTENSIONS.
  rewrite orb_false_r, orb_true_iff, String.eqb_eq, bool_decide_eq_true.
  rewrite !elem_of_cons, elem_of_nil. naive_solver.
Qed.

(** ** universal_parser.py: [get_supported_formats] *)

Lemma compare_lt_trans (a b c : string) :
  String.compare a b = Lt -> String.compare b c = Lt -> String.compare a c = Lt.
Proof.
  intros Hab Hbc.
  apply OrderedTypeEx.String_as_OT.cmp_lt.
  apply OrderedTypeEx.String_as_OT.cmp_lt in Hab, Hbc.
  by apply (OrderedTypeEx.String_as_OT.lt_trans a b c).
Qed.

Lemma compare_gt_lt (a b : string) :
  String.compare a b = Gt -> String.compare b a = Lt.
Proof. intros H. rewrite String.compare_antisym, H. done. Qed.

Lemma insert_sorted_elem (x y : string) (l : list string) :
  y ∈ insert_sorted x l <-> y = x \/ y ∈ l.
Proof.
  induction l as [|z l IH]; simpl.
  - rewrite list_elem_of_singleton, elem_of_nil. naive_solver.
  - destruct (String.compare x z) eqn:E.
    + apply String.compare_eq_iff in E as ->. rewrite elem_of_cons. naive_solver.
    + rewrite !elem_of_cons. naive_solver.
    + rewrite !elem_of_cons, IH. naive_solver.
Qed.

Lemma sorted_set_elem (y : string) (l : list string) : y ∈ sorted_set l <-> y ∈ l.
Proof.
  unfold sorted_set. induction l as [|x l IH]; simpl; [done|].
  rewrite insert_sorted_elem, IH, elem_of_cons. done.
Qed.

Lemma insert_sorted_increasing (x : string) (l : list string) :
  strictly_increasing l -> strictly_increasing (insert_sorted x l).
Proof.
  unfold strictly_increasing.
  induction 1 as [|z l Hl IH Hz]; simpl.
  - repeat constructor.
  - destruct (String.compare x z) eqn:E.
    + by constructor.
    + constructor; [by constructor|]. constructor; [done|].
      eapply Forall_impl; [exact Hz|]. intros c Hc. by apply (compare_lt_trans x z c).
    + constructor; [done|]. apply Forall_forall. intros c Hc.
      apply insert_sorted_elem in Hc as [->|Hc].
      * by apply compare_gt_lt.
      * by apply (proj1 (Forall_forall _ _) Hz).
Qed.

Lemma sorted_set_increasing (l : list string) : strictly_increasing (sorted_set l).
Proof.
  unfold sorted_set. induction l as [|x l IH]; simpl.
  - constructor.
  - by apply insert_sorted_increasing.
Qed.

Lemma foldl_extend_concat {A B} (f : A -> list B) (l : list A) (acc : list B) :
  foldl (fun acc x => (acc ++ f x)%list) acc l = (acc ++ concat (map f l))%list.
Proof.
  revert acc. induction l as [|x l IH]; intros acc; simpl.
  - by rewrite app_nil_r.
  - rewrite IH. by rewrite <- app_assoc.
Qed.

Lemma elem_of_concat {A} (x : A) (ls : list (list A)) :
  x ∈ concat ls <-> exists l, x ∈ l /\ l ∈ ls.
Proof.
  induction ls as [|l ls IH]; simpl.
  - rewrite elem_of_nil. split; [done|]. intros (l & _ & Hl). by apply elem_of_nil in Hl.
  - rewrite elem_of_app, IH. split.
    + intros [H|(l' & H1 & H2)]; [exists l; split; [done|by left]|].
      exists l'. split; [done|by right].
    + intros (l' & H1 & H2). apply elem_of_cons in H2 as [->|H2]; [by left|].
      right. by exists l'.
Qed.

(** X7: for any registered parsers, [get_supported_formats] is strictly
    increasing (sorted, every extension once) and holds exactly the
    extensions some registered parser declares. *)
Theorem X7_supported_formats_sorted_union (ps : list BaseParser.Parser) :
  strictly_increasing (UniversalParser.get_supported_formats ps) /\
  forall ext,
    ext ∈ UniversalParser.get_supported_formats ps <->
    exists p, p ∈ ps /\ ext ∈ BaseParser.SUPPORTED_EXTENSIONS p.
Proof.
  unfold UniversalParser.get_supported_formats. split.
  - apply sorted_set_increasing.
  - intros ext. rewrite sorted_set_elem, foldl_extend_concat. simpl.
    rewrite elem_of_concat. split.
    + intros (exts & Hext & Hexts). apply list_elem_of_fmap in Hexts as (p & -> & Hp).
      by exists p.
    + intros (p & Hp & Hext). exists (BaseParser.SUPPORTED_EXTENSIONS p).
      split; [done|]. apply list_elem_of_fmap. by exists p.
Qed.

(** ** universal_parser.py: configuration, [parse_document], batches *)

(** X8: the dispatcher with its registered parsers reads only the options
    [extract_tables], [max_file_size_mb] and [encoding]: two
    configurations that agree on them give the same outcome on every
    path, so [extract_images] and [ocr_enabled] change nothing, in
    particular the [extract_images] argument of [parse_document]. *)
Theorem X8_unread_options_change_nothing
    (w : World) (c1 c2 : ParserConfig) (fp : string) :
  same_read_options c1 c2 ->
  UniversalParser.parse w (UniversalParser.registered w c1) fp
  = UniversalParser.parse w (UniversalParser.registered w c2) fp /\
  parse_document w fp (extract_tables c1) (extract_images c1)
  = parse_document w fp (extract_tables c2) (extract_images c2).
Proof.
  destruct c1, c2. unfold same_read_options. simpl.
  intros (-> & -> & ->). by split.
Qed.

Lemma X8_unread_options_change_nothing_witness :
  UniversalParser.parse Demo.world
    (UniversalParser.registered Demo.world ParserConfig_default) "guide.pdf"
  = UniversalParser.parse Demo.world
      (UniversalParser.registered Demo.world
         (mkParserConfig true true true 50 "utf-8")) "guide.pdf" /\
  parse_document Demo.world "guide.pdf" true false
  = parse_document Demo.world "guide.pdf" true true.
Proof.
  apply (X8_unread_options_change_nothing Demo.world ParserConfig_default
           (mkParserConfig true true true 50 "utf-8") "guide.pdf").
  repeat split.
Defined.

(** X9: a batch can be split: parsing the concatenation of two lists of
    paths gives the concatenation of the two results, and no path gives
    no document. *)
Theorem X9_parse_multiple_splits
    (w : World) (ps : list BaseParser.Parser) (paths1 paths2 : list string) :
  UniversalParser.parse_multiple w ps (paths1 ++ paths2)
  = (UniversalParser.parse_multiple w ps paths1
     ++ UniversalParser.parse_multiple w ps paths2)%list /\
  UniversalParser.parse_multiple w ps [] = [].
Proof. split; [|done]. rewrite !parse_multiple_map. apply map_app. Qed.

(** X10: with the registered parsers, an entry of a batch has the type
    UNKNOWN exactly when [parse] raised on its path. *)
Theorem X10_batch_entry_unknown_iff_failed
    (w : World) (config : ParserConfig) (paths : list string) (i : nat) (fp : string) :
  paths !! i = Some fp ->
  exists d,
    UniversalParser.parse_multiple w (UniversalParser.registered w config) paths !! i
    = Some d /\
    (document_type d = UNKNOWN <->
     raises (UniversalParser.parse w (UniversalParser.registered w config) fp)).
Proof.
  intros Hi. rewrite parse_multiple_map, list_lookup_fmap, Hi. simpl.
  eexists. split; [reflexivity|]. unfold batch_entry.
  destruct (UniversalParser.parse w (UniversalParser.registered w config) fp)
    as [e|doc] eqn:Hp; simpl; [done|].
  destruct (registered_result_shape w config fp doc Hp) as (_ & _ & Hne).
  done.
Qed.

(** The batch of a valid path, a missing one and a valid one: the middle
    entry is the one of type UNKNOWN. *)
Lemma X10_batch_entry_unknown_iff_failed_witness :
  exists d,
    UniversalParser.parse_multiple Demo.world
      (UniversalParser.registered Demo.world Demo.config)
      ["guide.pdf"; "missing.pdf"; "table.csv"] !! 1%nat = Some d /\
    (document_type d = UNKNOWN <->
     raises (UniversalParser.parse Demo.world
               (UniversalParser.registered Demo.world Demo.config) "missing.pdf")).
Proof.
  apply (X10_batch_entry_unknown_iff_failed Demo.world Demo.config
           ["guide.pdf"; "missing.pdf"; "table.csv"] 1 "missing.pdf").
  reflexivity.
Defined.

(** ** excel_parser.py: the documents and tables of the tabular parser *)

(** X11: whatever the libraries do, a document [ExcelParser.parse]
    returns is for the path it was given, has type CSV for the extensions
    csv and tsv and EXCEL for any other, and holds at most one table,
    whose cached counts are right. *)
Theorem X11_tabular_document_shape
    (w : World) (config : ParserConfig) (fp : string) (doc : ParsedDocument) :
  ExcelParser.parse w config fp = Return doc ->
  file_path doc = fp /\
  document_type doc = tabular_type (get_file_extension fp) /\
  (length (tables doc) <= 1)%nat /\
  Forall counts_match (tables doc).
Proof. apply excel_doc_shape. Qed.

Lemma X11_tabular_document_shape_witness :
  exists doc,
    ExcelParser.parse Demo.world Demo.config "/data/table.csv" = Return doc /\
    file_path doc = "/data/table.csv" /\
    document_type doc = CSV /\
    (length (tables doc) <= 1)%nat /\
    Forall counts_match (tables doc).
Proof.
  eexists. split; [reflexivity|].
  apply (X11_tabular_document_shape Demo.world Demo.config "/data/table.csv").
  reflexivity.
Defined.

Lemma pad_and_drop_exact (row : list string) : pad_and_drop (length row) row = row.
Proof. unfold pad_and_drop. apply take_app_length. Qed.

Lemma dataframe_table_rectangular (df : DataFrame) :
  rectangular (ExcelParser._dataframe_to_table df).
Proof.
  unfold rectangular, ExcelParser._dataframe_to_table. simpl.
  apply Forall_forall. intros row Hrow.
  apply list_elem_of_fmap in Hrow as (cells & -> & Hcells).
  unfold df_iter_rows in Hcells.
  apply list_elem_of_fmap in Hcells as (i & -> & _).
  unfold df_columns. by rewrite !length_map.
Qed.

(** On a rectangular table with distinct headers, [to_dict] pairs every
    row with the headers as it is. *)
Lemma to_dict_rectangular (t : Table) :
  rectangular t -> NoDup (headers t) -> (rows t <> [] -> headers t <> []) ->
  to_dict t = map (fun row => zip (headers t) row) (rows t).
Proof.
  intros Hrect Hnd Hhead.
  destruct (decide (rows t = [])) as [Hr|Hr].
  - rewrite Hr. simpl. unfold to_dict. rewrite Hr. simpl. by rewrite orb_true_r.
  - rewrite (to_dict_unfold t (Hhead Hr) Hr).
    apply map_ext_in. intros row Hrow. rewrite to_dict_row_keyed by done.
    unfold keyed_row.
    assert (Hlen : length row = length (headers t)).
    { apply (proj1 (Forall_forall _ _) Hrect). by apply list_elem_of_In. }
    by rewrite <- Hlen, pad_and_drop_exact.
Qed.

(** X12: the table built from a DataFrame is rectangular: every row has
    one cell per column; with distinct column names its keyed rendering
    pairs each row with the column names, with nothing padded or dropped. *)
Theorem X12_dataframe_table_is_rectangular (df : DataFrame) :
  NoDup (df_columns df) ->
  rectangular (ExcelParser._dataframe_to_table df) /\
  to_dict (ExcelParser._dataframe_to_table df)
  = map (fun row => zip (df_columns df) row)
        (rows (ExcelParser._dataframe_to_table df)).
Proof.
  intros Hnd. split; [apply dataframe_table_rectangular|].
  apply (to_dict_rectangular (ExcelParser._dataframe_to_table df));
    [apply dataframe_table_rectangular | done |].
  simpl. unfold df_iter_rows, df_columns, df_height_nat.
  destruct (df_series df); simpl; done.
Qed.

Lemma X12_dataframe_table_is_rectangular_witness :
  rectangular (ExcelParser._dataframe_to_table Demo.table_frame) /\
  to_dict (ExcelParser._dataframe_to_table Demo.table_frame)
  = [ [("seg", "ISA"); ("max", "1")]; [("seg", "GS"); ("max", "99")] ].
Proof.
  apply (X12_dataframe_table_is_rectangular Demo.table_frame).
  apply NoDup_cons. split; [|apply NoDup_singleton].
  intros H. apply list_elem_of_singleton in H. discriminate.
Defined.

(** X13: when the delimited read of a csv or tsv file returns a frame,
    the document holds exactly the table of that frame, the text polars
    prints for it, and the metadata [rows], [columns], [column_names] and
    [shape], which agree with the cached counts of the table. *)
Theorem X13_delimited_success
    (w : World) (config : ParserConfig) (fp sep : string) (df : DataFrame) :
  validate_file w config fp = true ->
  delimiter_for (get_file_extension fp) sep ->
  pl_read_csv w fp sep = Return df ->
  exists doc,
    ExcelParser.parse w config fp = Return doc /\
    document_type doc = CSV /\
    text doc = pl_str w df /\
    tables doc = [ExcelParser._dataframe_to_table df] /\
    metadata doc !! "rows"
    = Some (VInt (num_rows (ExcelParser._dataframe_to_table df))) /\
    metadata doc !! "columns"
    = Some (VInt (num_columns (ExcelParser._dataframe_to_table df))) /\
    metadata doc !! "column_names" = Some (VNames (df_columns df)) /\
    metadata doc !! "shape"
    = Some (VStr (str_int (df_height df) ++ " x " ++ str_int (df_width df))).
Proof.
  intros Hv Hsep Hread. rewrite (excel_parse_valid w config fp Hv).
  destruct Hsep as [[-> ->]|[-> ->]]; simpl.
  - unfold ExcelParser._parse_csv. rewrite Hread. simpl.
    eexists. split; [reflexivity|]. repeat split.
  - unfold ExcelParser._parse_tsv. rewrite Hread. simpl.
    eexists. split; [reflexivity|]. repeat split.
Qed.

Lemma X13_delimited_success_witness :
  exists doc,
    ExcelParser.parse Demo.world Demo.config "/data/table.csv" = Return doc /\
    document_type doc = CSV /\
    text doc = "shape: (2, 2)" /\
    tables doc = [mkTable ["seg"; "max"] [["ISA"; "1"]; ["GS"; "99"]] 2 2] /\
    metadata doc !! "rows" = Some (VInt 2) /\
    metadata doc !! "columns" = Some (VInt 2) /\
    metadata doc !! "column_names" = Some (VNames ["seg"; "max"]) /\
    metadata doc !! "shape" = Some (VStr "2 x 2").
Proof.
  apply (X13_delimited_success Demo.world Demo.config "/data/table.csv" ","
           Demo.table_frame).
  - reflexivity.
  - left. split; reflexivity.
  - reflexivity.
Defined.

(** *** The openpyxl fallback *)

Lemma fallback_columns_from (rows : list (list string)) (hs : list string) k d :
  NoDup hs ->
  (forall h, h ∈ hs -> h ∉ d.*1) ->
  foldl (fun d ih =>
           dict_setitem (snd ih)
             (map (fun row => if (fst ih <? length row)%nat
                              then nth (fst ih) row "" else "") rows) d)
        d (enumerate k hs)
  = (d ++ zip hs (map (fun i => map (fun row => default "" (row !! i)) rows)
                      (seq k (length hs))))%list.
Proof.
  revert k d. induction hs as [|h hs IH]; intros k d Hnd Hfresh; simpl.
  - by rewrite app_nil_r.
  - apply NoDup_cons in Hnd as [Hh Hnd].
    rewrite dict_setitem_fresh by (apply Hfresh; left).
    rewrite IH; [|done|].
    + rewrite <- app_assoc. simpl. do 3 f_equal.
      apply map_ext. intros row. apply getitem_or_empty.
    + intros h' Hin. rewrite fmap_app. simpl. intros Hx.
      apply elem_of_app in Hx as [Hx|Hx].
      * by apply (Hfresh h'); [right|].
      * apply list_elem_of_singleton in Hx. by subst.
Qed.

Lemma fallback_columns_distinct (hs : list string) (rows : list (list string)) :
  NoDup hs ->
  ExcelParser.fallback_columns hs rows
  = zip hs (map (fun i => map (fun row => default "" (row !! i)) rows)
                (seq 0 (length hs))).
Proof.
  intros Hnd. unfold ExcelParser.fallback_columns.
  rewrite fallback_columns_from; [done|done|]. intros h _. apply not_elem_of_nil.
Qed.

(** The table of the frame built from distinct headers and ragged rows:
    the headers as they are, every row padded and cut to their number. *)
Lemma fallback_table (hs : list string) (rows : list (list string)) :
  NoDup hs -> hs <> [] ->
  ExcelParser._dataframe_to_table (pl_DataFrame (ExcelParser.fallback_columns hs rows))
  = {| headers := hs;
       rows := map (pad_and_drop (length hs)) rows;
       num_rows := Z.of_nat (length rows);
       num_columns := Z.of_nat (length hs) |}.
Proof.
  intros Hnd Hne. rewrite (fallback_columns_distinct hs rows Hnd).
  set (cols := map (fun i => map (fun row => default "" (row !! i)) rows)
                   (seq 0 (length hs))).
  assert (Hcols : length cols = length hs) by (unfold cols; by rewrite length_map, length_seq).
  assert (Hheight : df_height_nat (pl_DataFrame (zip hs cols)) = length rows).
  { unfold df_height_nat, pl_DataFrame. simpl.
    destruct hs as [|h hs]; [done|]. simpl in *.
    unfold cols. simpl. by rewrite !length_map. }
  unfold ExcelParser._dataframe_to_table. f_equal.
  - unfold df_columns, pl_DataFrame. simpl. rewrite map_map. simpl.
    change (map (fun x : string * list string => x.1) (zip hs cols)) with ((zip hs cols).*1).
    apply fst_zip. lia.
  - unfold df_iter_rows. rewrite Hheight. rewrite map_map.
    apply list_eq. intros j. rewrite !list_lookup_fmap.
    destruct (rows !! j) as [r|] eqn:Hr.
    + rewrite lookup_seq_lt by (by apply lookup_lt_Some in Hr). simpl. f_equal.
      rewrite pad_and_drop_cells. unfold pl_DataFrame. simpl. rewrite !map_map. simpl.
      transitivity (map (fun col : list string => Py.str (nth j (map SStr col) SNone))
                        ((zip hs cols).*2)).
      { by rewrite <- list_fmap_compose. }
      rewrite snd_zip by lia. unfold cols. rewrite map_map.
      apply map_ext. intros i. rewrite map_map.
      rewrite nth_lookup, list_lookup_fmap, Hr. done.
    + rewrite lookup_seq_ge by (by apply lookup_ge_None in Hr). done.
  - unfold df_height. by rewrite Hheight.
  - unfold df_width, pl_DataFrame. simpl. rewrite length_map, length_zip. f_equal. lia.
Qed.

Lemma workbook_falls_back (w : World) (config : ParserConfig) (fp : string) :
  validate_file w config fp = true ->
  get_file_extension fp <> "csv" ->
  get_file_extension fp <> "tsv" ->
  excel_primary_fails w fp ->
  ExcelParser.parse w config fp = ExcelParser._parse_excel_fallback w fp.
Proof.
  intros Hv Hcsv Htsv Hprim. rewrite (excel_parse_valid w config fp Hv).
  apply String.eqb_neq in Hcsv, Htsv. rewrite Hcsv, Htsv.
  unfold ExcelParser._parse_excel, excel_primary_fails in *.
  by destruct (pl_read_excel w fp) as [e1|[df|sheets]].
Qed.

(** X14: when the primary read of a workbook fails and openpyxl gives
    its rows, the first row (cells as text, an empty cell as "") becomes
    the headers; if these are distinct, the document's only table has
    every further row padded with "" and cut to the number of headers. *)
Theorem X14_workbook_fallback_table
    (w : World) (config : ParserConfig) (fp : string)
    (first : list scalar) (rest : list (list scalar)) :
  validate_file w config fp = true ->
  get_file_extension fp <> "csv" ->
  get_file_extension fp <> "tsv" ->
  excel_primary_fails w fp ->
  openpyxl_iter_rows w fp = Return (first :: rest) ->
  first <> [] ->
  NoDup (map cell_text first) ->
  exists doc,
    ExcelParser.parse w config fp = Return doc /\
    document_type doc = EXCEL /\
    tables doc
    = [ {| headers := map cell_text first;
           rows := map (pad_and_drop (length first)) (sheet_texts rest);
           num_rows := Z.of_nat (length rest);
           num_columns := Z.of_nat (length first) |} ].
Proof.
  intros Hv Hcsv Htsv Hprim Hrows Hne Hnd.
  rewrite (workbook_falls_back w config fp Hv Hcsv Htsv Hprim).
  unfold ExcelParser._parse_excel_fallback. rewrite Hrows. simpl.
  eexists. split; [reflexivity|]. split; [done|]. simpl. f_equal.
  change (map (fun cell => match cell with SNone => "" | _ => Py.str cell end) first)
    with (map cell_text first).
  change (map (fun row => map (fun cell => match cell with SNone => "" | _ => Py.str cell end) row) rest)
    with (sheet_texts rest).
  rewrite fallback_table; [|done|by destruct first].
  unfold sheet_texts. by rewrite !length_map.
Qed.

(** A sheet with a short row and a long one. *)
Lemma X14_workbook_fallback_table_witness :
  exists doc,
    ExcelParser.parse Demo2.world Demo.config "/data/book.xlsx" = Return doc /\
    document_type doc = EXCEL /\
    tables doc
    = [ {| headers := ["Seg"; "Name"; "Max"];
           rows := [["ISA"; ""; ""]; ["GS"; "Group"; "35"]];
           num_rows := 2; num_columns := 3 |} ].
Proof.
  apply (X14_workbook_fallback_table Demo2.world Demo.config "/data/book.xlsx"
           [SStr "Seg"; SStr "Name"; SStr "Max"]
           [[SStr "ISA"; SNone]; [SStr "GS"; SStr "Group"; SInt 35; SStr "extra"]]).
  - reflexivity.
  - discriminate.
  - discriminate.
  - exact I.
  - reflexivity.
  - discriminate.
  - exact (bool_decide_unpack (NoDup ["Seg"; "Name"; "Max"]) I).
Defined.

(** X15: in the openpyxl fallback a sheet without rows gives the document
    "Empty spreadsheet" without a table, and a sheet whose first row has
    no cell gives a table without headers and without rows: the rows
    below the first are not kept. *)
Theorem X15_workbook_fallback_without_headers
    (w : World) (config : ParserConfig) (fp : string) (sheet_rows : list (list scalar)) :
  validate_file w config fp = true ->
  get_file_extension fp <> "csv" ->
  get_file_extension fp <> "tsv" ->
  excel_primary_fails w fp ->
  openpyxl_iter_rows w fp = Return sheet_rows ->
  default [] (head sheet_rows) = [] ->
  exists doc,
    ExcelParser.parse w config fp = Return doc /\
    (sheet_rows = [] ->
     doc = text_only fp EXCEL "Empty spreadsheet") /\
    (sheet_rows <> [] ->
     tables doc = [ {| headers := []; rows := []; num_rows := 0; num_columns := 0 |} ]).
Proof.
  intros Hv Hcsv Htsv Hprim Hrows Hhead.
  rewrite (workbook_falls_back w config fp Hv Hcsv Htsv Hprim).
  unfold ExcelParser._parse_excel_fallback. rewrite Hrows.
  destruct sheet_rows as [|first rest]; simpl in *.
  - eexists. split; [reflexivity|]. by split.
  - subst first. simpl. eexists. split; [reflexivity|]. by split.
Qed.

Lemma X15_workbook_fallback_without_headers_witness :
  exists doc,
    ExcelParser.parse Demo2.blank_world Demo.config "/data/book.xlsx" = Return doc /\
    ([[]; [SStr "lost"; SInt 1]] = [] ->
     doc = text_only "/data/book.xlsx" EXCEL "Empty spreadsheet") /\
    ([[]; [SStr "lost"; SInt 1]] <> [] ->
     tables doc = [ {| headers := []; rows := []; num_rows := 0; num_columns := 0 |} ]).
Proof.
  apply (X15_workbook_fallback_without_headers Demo2.blank_world Demo.config
           "/data/book.xlsx" [[]; [SStr "lost"; SInt 1]]).
  - reflexivity.
  - discriminate.
  - discriminate.
  - exact I.
  - reflexivity.
  - reflexivity.
Defined.

(** ** pdf_parser.py: tables, failing pages, and the two readers *)

Lemma page_tables_counts (ts : option (list (list (list (option string))))) :
  Forall counts_match (PDFParser.page_tables ts).
Proof.
  destruct ts as [ts|]; simpl; [|constructor].
  apply Forall_forall. intros t Ht.
  apply list_elem_of_fmap in Ht as (raw & -> & _). apply pdf_table_counts.
Qed.

(** The page loop on pages that all give their text and their raw tables,
    with table extraction on. *)
Lemma plumber_loop_tables (config : ParserConfig) pages texts raws :
  extract_tables config = true ->
  Forall2 page_has_text pages texts ->
  Forall2 page_has_tables pages raws ->
  forall k all_text all_tables,
    PDFParser.plumber_loop config (enumerate k pages) all_text all_tables
    = Return ((all_text ++ page_sections_from k texts)%list,
              (all_tables ++ concat (map PDFParser.page_tables raws))%list).
Proof.
  intros Hon Htexts. revert raws.
  induction Htexts as [|p t pages texts Ht _ IH]; intros raws Hraws k all_text all_tables.
  - apply Forall2_nil_inv_l in Hraws as ->. simpl. by rewrite !app_nil_r.
  - apply Forall2_cons_inv_l in Hraws as (ts & raws' & Hts & Hraws & ->).
    cbn [enumerate PDFParser.plumber_loop]. rewrite Ht, Hon. cbn [bind].
    rewrite Hts. cbn [bind]. rewrite (IH raws' Hraws).
    unfold page_sections_from. cbn [enumerate map concat fst snd].
    destruct (truthy_ostr t); by rewrite <- ?app_assoc.
Qed.

(** X16: with table extraction on, for a valid PDF whose pages give their
    texts and raw tables, the document holds the tables of the pages in
    page order and, within a page, in the order found; raw tables without
    a row are left out, and every table has right cached counts. The text
    and the page count are as without tables. *)
Theorem X16_pdf_tables_in_page_order
    (w : World) (config : ParserConfig) (fp : string) (pages : list PlumberPage)
    (texts : list (option string))
    (raws : list (option (list (list (list (option string)))))) :
  validate_file w config fp = true ->
  extract_tables config = true ->
  pdfplumber_open w fp = Return pages ->
  Forall2 page_has_text pages texts ->
  Forall2 page_has_tables pages raws ->
  PDFParser.parse w config fp
  = Return {| file_path := fp; document_type := PDF;
              text := join (String (ascii_of_nat 10) "") (page_sections texts);
              tables := concat (map PDFParser.page_tables raws);
              metadata := <["pages" := VInt (Z.of_nat (length pages))]> ∅;
              raw_content := None |} /\
  Forall counts_match (concat (map PDFParser.page_tables raws)) /\
  length (concat (map PDFParser.page_tables raws))
  = length (List.filter truthy_list (concat (map (default []) raws))).
Proof.
  intros Hv Hon Hopen Htexts Hraws. split; [|split].
  - rewrite (pdf_parse_valid w config fp Hv).
    unfold PDFParser._parse_with_pdfplumber. rewrite Hopen. cbn [bind].
    by rewrite (plumber_loop_tables config pages texts raws Hon Htexts Hraws).
  - apply Forall_concat. apply Forall_fmap. apply Forall_forall.
    intros ts _. apply page_tables_counts.
  - clear. induction raws as [|ts raws IH]; [done|]. simpl.
    rewrite length_app, List.filter_app, length_app, IH. f_equal.
    destruct ts as [ts|]; simpl; [|done]. by rewrite length_map.
Qed.

(** A page with one real table and one raw table without rows. *)
Lemma X16_pdf_tables_in_page_order_witness :
  PDFParser.parse Demo2.tabled_world Demo.config "/data/doc.pdf"
  = Return {| file_path := "/data/doc.pdf"; document_type := PDF;
              text := Demo.LF ++ "--- Page 1 ---" ++ Demo.LF ++ Demo.LF ++ "One";
              tables := [ {| headers := ["Seg"; ""]; rows := [["ISA"; "1"]];
                             num_rows := 1; num_columns := 2 |} ];
              metadata := <["pages" := VInt 2]> ∅;
              raw_content := None |} /\
  Forall counts_match
    [ {| headers := ["Seg"; ""]; rows := [["ISA"; "1"]];
         num_rows := 1; num_columns := 2 |} ] /\
  length (concat (map PDFParser.page_tables
                    [Some [ [[Some "Seg"; None]; [Some "ISA"; Some "1"]]; [] ]; None]))
  = 1%nat.
Proof.
  apply (X16_pdf_tables_in_page_order Demo2.tabled_world Demo.config "/data/doc.pdf"
           Demo2.tabled_pages [Some "One"; None]
           [Some [ [[Some "Seg"; None]; [Some "ISA"; Some "1"]]; [] ]; None]).
  - reflexivity.
  - reflexivity.
  - reflexivity.
  - repeat constructor.
  - repeat constructor.
Defined.

Lemma plumber_loop_page_failure (config : ParserConfig) pages :
  Exists (fun p => raises (plumber_extract_text p)) pages ->
  forall k all_text all_tables,
    raises (PDFParser.plumber_loop config (enumerate k pages) all_text all_tables).
Proof.
  induction 1 as [p pages Hp|p pages _ IH]; intros k all_text all_tables;
    cbn [enumerate PDFParser.plumber_loop].
  - by destruct (plumber_extract_text p).
  - destruct (plumber_extract_text p) as [e|t]; cbn [bind]; [done|].
    destruct (extract_tables config); [|apply IH].
    destruct (plumber_extract_tables p) as [e|ts]; cbn [bind]; [done|apply IH].
Qed.

(** X17: when pdfplumber opens a valid PDF but fails to extract the text
    of some page, nothing of what it read is kept: the outcome is that of
    the pypdf method alone. *)
Theorem X17_pdf_page_failure_discards_primary
    (w : World) (config : ParserConfig) (fp : string) (pages : list PlumberPage) :
  validate_file w config fp = true ->
  pdfplumber_open w fp = Return pages ->
  Exists (fun p => raises (plumber_extract_text p)) pages ->
  PDFParser.parse w config fp = PDFParser._parse_with_pypdf w fp.
Proof.
  intros Hv Hopen Hfail. rewrite (pdf_parse_valid w config fp Hv).
  unfold PDFParser._parse_with_pdfplumber. rewrite Hopen. cbn [bind].
  pose proof (plumber_loop_page_failure config pages Hfail 1%nat [] []) as Hloop.
  by destruct (PDFParser.plumber_loop config (enumerate 1 pages) [] []).
Qed.

(** A PDF whose second page pdfplumber cannot read; pypdf reads both. *)
Lemma X17_pdf_page_failure_discards_primary_witness :
  PDFParser.parse Demo2.world Demo.config "/data/doc.pdf"
  = PDFParser._parse_with_pypdf Demo2.world "/data/doc.pdf".
Proof.
  apply (X17_pdf_page_failure_discards_primary Demo2.world Demo.config "/data/doc.pdf"
           [ mkPlumberPage (Return (Some "One")) (Return (Some []));
             mkPlumberPage (Raise (OtherError "PSException" "bad stream"))
                           (Return (Some [])) ]).
  - reflexivity.
  - reflexivity.
  - apply Exists_cons_tl. apply Exists_cons_hd. exact I.
Defined.

(** X18: a document of the PDF parser tells which reader made it: the
    document of pdfplumber has no [method] entry in its metadata, the
    document of the pypdf fallback has [method = "pypdf"] and no table.
    Both record a page count. *)
Theorem X18_pdf_method_marks_fallback
    (w : World) (config : ParserConfig) (fp : string) (doc : ParsedDocument) :
  PDFParser.parse w config fp = Return doc ->
  match PDFParser._parse_with_pdfplumber w config fp with
  | Return d => doc = d /\ metadata doc !! "method" = None
  | Raise _ => metadata doc !! "method" = Some (VStr "pypdf") /\ tables doc = []
  end /\
  exists n : nat, metadata doc !! "pages" = Some (VInt (Z.of_nat n)).
Proof.
  unfold PDFParser.parse. destruct (validate_file w config fp); simpl; [|done].
  unfold PDFParser._parse_with_pdfplumber, PDFParser._parse_with_pypdf, try_except, bind.
  intros H.
  repeat (case_match; simpl in *; simplify_eq);
    (split; [by split | by eexists]).
Qed.

Lemma X18_pdf_method_marks_fallback_witness :
  exists doc,
    PDFParser.parse Demo2.world Demo.config "/data/doc.pdf" = Return doc /\
    metadata doc !! "method" = Some (VStr "pypdf") /\
    tables doc = [].
Proof.
  eexists. split; [reflexivity|].
  destruct (X18_pdf_method_marks_fallback Demo2.world Demo.config "/data/doc.pdf" _
              eq_refl) as [Hmark _].
  exact Hmark.
Defined.

(** ** text_parser.py: errors that are not decode errors, and the result *)

(** X19: an error of the first read that is not a UnicodeDecodeError (a
    missing permission, an unknown encoding name) is raised as it is; no
    other encoding is tried. *)
Theorem X19_text_other_errors_propagate
    (w : World) (config : ParserConfig) (fp : string) (e : exc) :
  validate_file w config fp = true ->
  open_read w fp (encoding config) = Raise e ->
  (forall msg, e <> UnicodeDecodeError msg) ->
  TextParser.parse w config fp = Raise e.
Proof.
  intros Hv Hread Hother. unfold TextParser.parse. rewrite Hv. simpl.
  unfold TextParser.read_with. rewrite Hread. simpl.
  destruct e; try done. by destruct (Hother msg).
Qed.

(** A file that cannot be opened, though latin-1 would read it. *)
Lemma X19_text_other_errors_propagate_witness :
  open_read Demo2.world "/data/notes.txt" "latin-1" = Return "never read" /\
  TextParser.parse Demo2.world Demo.config "/data/notes.txt"
  = Raise (OtherError "PermissionError" "denied").
Proof.
  split; [reflexivity|].
  apply (X19_text_other_errors_propagate Demo2.world Demo.config "/data/notes.txt").
  - reflexivity.
  - reflexivity.
  - discriminate.
Defined.

Lemma read_with_inv (w : World) (fp enc : string) (doc : ParsedDocument) :
  TextParser.read_with w fp enc = Return doc ->
  open_read w fp enc = Return (text doc) /\ doc = text_document fp enc (text doc).
Proof.
  destruct (open_read w fp enc) as [e|body] eqn:Hread.
  - unfold TextParser.read_with. by rewrite Hread.
  - rewrite (read_with_returns w fp enc body Hread). by intros [= <-].
Qed.

Lemma retry_inv (w : World) (fp : string) (encs : list string) (doc : ParsedDocument) :
  TextParser.retry w fp encs = Return doc ->
  exists enc,
    enc ∈ encs /\ open_read w fp enc = Return (text doc) /\
    doc = text_document fp enc (text doc).
Proof.
  induction encs as [|enc encs IH]; simpl; [done|].
  destruct (TextParser.read_with w fp enc) as [e|d] eqn:Hread; simpl.
  - intros H. destruct (IH H) as (enc' & Hin & Hrest). exists enc'. split; [by right|done].
  - intros [= <-]. exists enc. split; [by left|]. by apply read_with_inv.
Qed.

(** X20: every document [TextParser.parse] returns is a TEXT document
    without tables whose text is what one of the encodings (the
    configured one or one of the three fallbacks) read, and whose metadata
    name that encoding and count the lines and characters of that text. *)
Theorem X20_text_document_invariant
    (w : World) (config : ParserConfig) (fp : string) (doc : ParsedDocument) :
  TextParser.parse w config fp = Return doc ->
  exists enc,
    enc ∈ encoding config :: TextParser.fallback_encodings /\
    open_read w fp enc = Return (text doc) /\
    doc = text_document fp enc (text doc).
Proof.
  unfold TextParser.parse. destruct (validate_file w config fp); simpl; [|done].
  destruct (TextParser.read_with w fp (encoding config)) as [e|d] eqn:Hread; simpl.
  - destruct e; try done. intros H.
    destruct (retry_inv w fp TextParser.fallback_encodings doc H) as (enc & Hin & Hrest).
    exists enc. split; [by right|done].
  - intros [= <-]. exists (encoding config). split; [by left|].
    by apply read_with_inv.
Qed.

Lemma X20_text_document_invariant_witness :
  exists doc enc,
    TextParser.parse Demo.world Demo.config "/data/legacy.txt" = Return doc /\
    enc ∈ ["utf-8"; "latin-1"; "cp1252"; "iso-8859-1"] /\
    open_read Demo.world "/data/legacy.txt" enc = Return (text doc) /\
    doc = text_document "/data/legacy.txt" enc (text doc).
Proof.
  eexists.
  destruct (X20_text_document_invariant Demo.world Demo.config "/data/legacy.txt" _
              eq_refl) as (enc & Hin & Hread & Hdoc).
  exists enc. split; [reflexivity|]. split; [exact Hin|]. split; [exact Hread|exact Hdoc].
Defined.

(** ** word_parser.py *)

Section WordParse.
Variable w : World.
Variable config : ParserConfig.
Variable docx_open : string -> result DocxDocument.

Lemma word_parse_docx (fp : string) :
  validate_file w config fp = true ->
  get_file_extension fp <> "doc" ->
  WordParserMethods.parse w config docx_open fp
  = WordParserMethods._parse_docx config docx_open fp.
Proof.
  intros Hv Hext. unfold WordParserMethods.parse. rewrite Hv. simpl.
  apply String.eqb_neq in Hext. rewrite Hext. apply try_except_reraise.
Qed.
End WordParse.

(** X21: on a valid path the Word parser answers a [.doc] file with the
    placeholder document and does not open the file; for any other
    extension an error of opening the document is raised as it is. *)
Theorem X21_word_doc_placeholder_and_open_error
    (w : World) (config : ParserConfig)
    (docx_open : string -> result DocxDocument) (fp : string) :
  validate_file w config fp = true ->
  (get_file_extension fp = "doc" ->
   WordParserMethods.can_parse fp = true /\
   WordParserMethods.parse w config docx_open fp = Return (doc_placeholder fp)) /\
  (get_file_extension fp <> "doc" ->
   forall e, docx_open fp = Raise e ->
             WordParserMethods.parse w config docx_open fp = Raise e).
Proof.
  intros Hv. split.
  - intros Hext. unfold WordParserMethods.can_parse, WordParserMethods.parse.
    rewrite Hv, Hext. by split.
  - intros Hext e Hopen. rewrite (word_parse_docx w config docx_open fp Hv Hext).
    unfold WordParserMethods._parse_docx. by rewrite Hopen.
Qed.

Lemma X21_word_doc_placeholder_and_open_error_witness :
  WordParserMethods.parse Demo.world Demo.config Demo2.docx_open "/data/notes.docx"
  = Raise (OtherError "PackageNotFoundError" "Package not found").
Proof.
  destruct (X21_word_doc_placeholder_and_open_error Demo.world Demo.config
              Demo2.docx_open "/data/notes.docx" eq_refl) as [_ Hopen].
  apply Hopen; [discriminate | reflexivity].
Defined.

(** X22: for a valid [.docx] file that opens, the Word parser returns a
    WORD document whose text is the stripped, non-empty paragraphs joined
    by blank lines; its tables all have at least one data row and right
    cached counts, and there are none when table extraction is off; the
    metadata count all paragraphs and all tables of the file, also the
    ones left out; a failure to read the core properties leaves the
    document without [title] and does not fail the call. *)
Theorem X22_word_docx_document
    (w : World) (config : ParserConfig)
    (docx_open : string -> result DocxDocument) (fp : string) (d : DocxDocument) :
  validate_file w config fp = true ->
  get_file_extension fp <> "doc" ->
  docx_open fp = Return d ->
  exists doc,
    WordParserMethods.parse w config docx_open fp = Return doc /\
    document_type doc = WORD /\
    text doc
    = join (String (ascii_of_nat 10) (String (ascii_of_nat 10) ""))
        (List.filter truthy_str (map strip (docx_paragraphs d))) /\
    Forall (fun t => rows t <> [] /\ counts_match t) (tables doc) /\
    (length (tables doc) <= length (docx_tables d))%nat /\
    (extract_tables config = false -> tables doc = []) /\
    metadata doc !! "paragraphs" = Some (VInt (Z.of_nat (length (docx_paragraphs d)))) /\
    metadata doc !! "tables" = Some (VInt (Z.of_nat (length (docx_tables d)))) /\
    (raises (docx_core_properties d) -> metadata doc !! "title" = None).
Proof.
  intros Hv Hext Hopen. rewrite (word_parse_docx w config docx_open fp Hv Hext).
  unfold WordParserMethods._parse_docx. rewrite Hopen. cbn [bind].
  eexists. split; [reflexivity|]. cbn [document_type text tables metadata
    create_parsed_document default].
  split; [done|]. split; [done|].
  assert (Hkept : forall l : list (list (list string)),
             Forall (fun t => rows t <> [] /\ counts_match t)
               (List.filter (fun t => truthy_list (rows t))
                  (map WordParser._parse_word_table l))).
  { intros l. apply Forall_forall. intros t Ht.
    apply list_elem_of_In, List.filter_In in Ht as [Ht Hrows].
    apply list_elem_of_In, list_elem_of_fmap in Ht as (raw & -> & _).
    split; [|apply word_table_counts].
    intros E. by rewrite E in Hrows. }
  split; [|split; [|split]].
  - destruct (_ && _); [apply Hkept | constructor].
  - destruct (_ && _); simpl; [|lia].
    etransitivity; [apply List.filter_length_le|]. by rewrite length_map.
  - by intros ->.
  - destruct (docx_core_properties d); repeat split; done.
Qed.

(** A letter with a blank paragraph, a table with one data row and a
    table that is only a header, whose core properties cannot be read. *)
Lemma X22_word_docx_document_witness :
  exists doc,
    WordParserMethods.parse Demo2.world Demo.config Demo2.docx_open "/data/letter.docx"
    = Return doc /\
    document_type doc = WORD /\
    text doc = "Dear all," ++ Demo.LF ++ Demo.LF ++ "see the table." /\
    Forall (fun t => rows t <> [] /\ counts_match t) (tables doc) /\
    (length (tables doc) <= 2)%nat /\
    (extract_tables Demo.config = false -> tables doc = []) /\
    metadata doc !! "paragraphs" = Some (VInt 3) /\
    metadata doc !! "tables" = Some (VInt 2) /\
    (raises (docx_core_properties Demo2.letter) -> metadata doc !! "title" = None).
Proof.
  apply (X22_word_docx_document Demo2.world Demo.config Demo2.docx_open
           "/data/letter.docx" Demo2.letter).
  - reflexivity.
  - discriminate.
  - reflexivity.
Defined.

(** ** models.py: [ParsedDocument.get_all_text] *)

Lemma table_lines_block (all_text : list string) (t : Table) :
  table_lines all_text t = (all_text ++ table_block t)%list.
Proof.
  unfold table_lines, table_block. rewrite foldl_snoc_map.
  destruct (truthy_list (headers t)); simpl; by rewrite <- ?app_assoc, ?app_nil_r.
Qed.

Lemma join_cons (sep x : string) (l : list string) :
  exists rest, join sep (x :: l) = x ++ rest.
Proof.
  destruct l as [|y l]; simpl.
  - exists "". clear. induction x as [|c x IH]; [done|].
    change (String c x = String c (x ++ "")). by f_equal.
  - by eexists.
Qed.

(** X23: [get_all_text] is the newline-joined sequence of the document's
    text and then, for each table in order, a heading of its headers and
    a rule of fifty dashes (only when it has headers) followed by one
    line per row. It begins with the document's text, and is that text
    alone when there is no table. *)
Theorem X23_get_all_text_layout (d : ParsedDocument) :
  get_all_text d
  = join (String (ascii_of_nat 10) "") (text d :: concat (map table_block (tables d))) /\
  (exists rest, get_all_text d = text d ++ rest) /\
  (tables d = [] -> get_all_text d = text d).
Proof.
  assert (E : get_all_text d
              = join (String (ascii_of_nat 10) "")
                  (text d :: concat (map table_block (tables d)))).
  { unfold get_all_text. f_equal.
    change (text d :: concat (map table_block (tables d)))
      with ([text d] ++ concat (map table_block (tables d)))%list.
    generalize [text d]. induction (tables d) as [|t ts IH]; intros acc; simpl.
    - by rewrite app_nil_r.
    - rewrite IH, table_lines_block. by rewrite <- app_assoc. }
  split; [exact E|]. split.
  - rewrite E. apply join_cons.
  - intros Hnone. rewrite E, Hnone. done.
Qed.

(** ** multifile_chatbot.py: the parts handed to the chat *)

(** X24: files that do not exist are skipped: the loop gives what it
    gives on the existing files alone. *)
Theorem X24_chat_skips_missing_files
    (env : Chatbot.Env) (upload_files : list string) (doc_parts : list Chatbot.Part) :
  Chatbot.build_parts env upload_files doc_parts
  = Chatbot.build_parts env (List.filter (Chatbot.exists_ env) upload_files) doc_parts.
Proof.
  revert doc_parts. induction upload_files as [|f fs IH]; intros doc_parts; [done|].
  cbn [List.filter]. destruct (Chatbot.exists_ env f) eqn:He.
  - cbn [Chatbot.build_parts]. rewrite He. cbn [negb].
    unfold bind.
    repeat case_match; try done; apply IH.
  - cbn [Chatbot.build_parts]. rewrite He. apply IH.
Qed.

Lemma eqb_workbook (file_name : string) :
  String.eqb (lower (PathLib.suffix file_name)) ".xlsx"
  || String.eqb (lower (PathLib.suffix file_name)) ".xls" = true
  <-> workbook_name file_name.
Proof. unfold workbook_name. rewrite orb_true_iff, !String.eqb_eq. done. Qed.

Lemma build_parts_inv (env : Chatbot.Env) (upload_files : list string) :
  forall doc_parts parts,
    Chatbot.build_parts env upload_files doc_parts = Return parts ->
    exists new_parts,
      parts = (doc_parts ++ new_parts)%list /\
      Forall2 (part_for env) (List.filter (Chatbot.exists_ env) upload_files) new_parts.
Proof.
  induction upload_files as [|f fs IH]; intros doc_parts parts; cbn [Chatbot.build_parts].
  { intros [= <-]. exists []. split; [by rewrite app_nil_r | constructor]. }
  cbn [List.filter]. destruct (Chatbot.exists_ env f) eqn:He; cbn [negb]; [|apply IH].
  assert (Hbytes : forall parts',
             (~ workbook_name f \/ raises (Chatbot.read_excel_to_csv env f)) ->
             (let* part := Chatbot.bytes_part env f in
              Chatbot.build_parts env fs (doc_parts ++ [part])%list) = Return parts' ->
             exists new_parts,
               parts' = (doc_parts ++ new_parts)%list /\
               Forall2 (part_for env) (f :: List.filter (Chatbot.exists_ env) fs) new_parts).
  { intros parts' Hwhy. unfold Chatbot.bytes_part.
    destruct (Chatbot.read_bytes env f) as [e|data] eqn:Hread; cbn [bind]; [done|].
    intros H. destruct (IH _ _ H) as (more & -> & Hmore).
    exists (Chatbot.BytesPart data (Chatbot.guess_type env f) :: more).
    split; [by rewrite <- app_assoc|]. constructor; [|done].
    right. split; [done|]. by exists data. }
  destruct (String.eqb (lower (PathLib.suffix f)) ".xlsx"
            || String.eqb (lower (PathLib.suffix f)) ".xls") eqn:Hx.
  - apply eqb_workbook in Hx.
    destruct (Chatbot.read_excel_to_csv env f) as [e|csv_text] eqn:Hcsv.
    + apply Hbytes. right. exact I.
    + intros H. destruct (IH _ _ H) as (more & -> & Hmore).
      exists (Chatbot.excel_part f csv_text :: more).
      split; [by rewrite <- app_assoc|]. constructor; [|done].
      left. split; [done|]. by exists csv_text.
  - apply Hbytes. left. intros Hw. apply eqb_workbook in Hw. congruence.
Qed.

(** X25: when the loop of the chat script completes, it holds one part
    per existing file, in the order of the files: for a workbook that
    pandas reads, the CSV text between the START and END marker lines
    (its bytes are not uploaded), and for every other file, and for a
    workbook pandas fails on, the bytes with the guessed MIME type. *)
Theorem X25_chat_parts_follow_files
    (env : Chatbot.Env) (upload_files : list string) (parts : list Chatbot.Part) :
  Chatbot.build_parts env upload_files [] = Return parts ->
  Forall2 (part_for env) (List.filter (Chatbot.exists_ env) upload_files) parts /\
  length parts = length (List.filter (Chatbot.exists_ env) upload_files).
Proof.
  intros H. destruct (build_parts_inv env upload_files [] parts H) as (new & -> & Hnew).
  simpl. split; [done|]. symmetry. by apply (Forall2_length (part_for env)).
Qed.

(** The three files of the script, the second one missing. *)
Lemma X25_chat_parts_follow_files_witness :
  Forall2 (part_for Demo2.chat_env) ["upload/test.pdf"; "upload/Topco.xlsx"]
    [ Chatbot.BytesPart "%PDF" (Some "application/pdf");
      Chatbot.excel_part "upload/Topco.xlsx" "a,b" ] /\
  length [ Chatbot.BytesPart "%PDF" (Some "application/pdf");
           Chatbot.excel_part "upload/Topco.xlsx" "a,b" ] = 2%nat.
Proof.
  apply (X25_chat_parts_follow_files Demo2.chat_env
           ["upload/test.pdf"; "upload/Payslip.pdf"; "upload/Topco.xlsx"]).
  reflexivity.
Defined.

(** ** universal_parser.py: dispatch order and the final error *)

Lemma registered_result_types
    (w : World) (config : ParserConfig) (fp : string) (doc : ParsedDocument) :
  UniversalParser.parse w (UniversalParser.registered w config) fp = Return doc ->
  document_type doc = PDF \/ document_type doc = EXCEL \/ document_type doc = CSV.
Proof.
  unfold UniversalParser.parse.
  destruct (path_exists w (path_resolve w fp)); simpl; [|done].
  destruct (PDFParser.can_parse (path_resolve w fp)).
  - destruct (PDFParser.parse w config (path_resolve w fp)) as [e|d] eqn:Hp.
    + destruct (ExcelParser.can_parse (path_resolve w fp)); [|done].
      destruct (ExcelParser.parse w config (path_resolve w fp)) as [e'|d] eqn:Hx; [done|].
      intros [= <-]. destruct (excel_doc_shape w config _ d Hx) as (_ & -> & _).
      unfold tabular_type. destruct (_ || _); auto.
    + intros [= <-]. destruct (pdf_doc_shape w config _ d Hp) as [_ ->]. auto.
  - destruct (ExcelParser.can_parse (path_resolve w fp)); [|done].
    destruct (ExcelParser.parse w config (path_resolve w fp)) as [e'|d] eqn:Hx; [done|].
    intros [= <-]. destruct (excel_doc_shape w config _ d Hx) as (_ & -> & _).
    unfold tabular_type. destruct (_ || _); auto.
Qed.

(** C1: for a path that exists, [UniversalParser.parse] tries the
    registered parsers in registration order: it returns a document
    exactly when some parser matches and returns it while every matching
    parser registered before it has raised, so a raising attempt hands
    over to the next matching parser. Exactly when every matching parser
    raises, which includes no parser matching at all, the call raises the
    ValueError "No parser available for file type: " followed by the
    suffix of the path and the line "Supported formats: PDF (.pdf), Excel
    (.xlsx, .xls), CSV (.csv)"; PDF, Excel and CSV are the types of the
    documents the dispatcher returns with the parsers it registers. *)
Theorem C1_dispatch_in_order_then_unsupported
    (w : World) (ps : list BaseParser.Parser) (fp : string) :
  path_exists w (path_resolve w fp) = true ->
  (forall doc,
      UniversalParser.parse w ps fp = Return doc <->
      exists pre p post,
        ps = (pre ++ p :: post)%list /\
        Forall (attempt_fails (path_resolve w fp)) pre /\
        BaseParser.can_parse p (path_resolve w fp) = true /\
        BaseParser.parse p (path_resolve w fp) = Return doc) /\
  (Forall (attempt_fails (path_resolve w fp)) ps <->
   UniversalParser.parse w ps fp
   = Raise (ValueError
       ("No parser available for file type: " ++ PathLib.suffix (path_resolve w fp)
        ++ String (ascii_of_nat 10) ""
        ++ "Supported formats: PDF (.pdf), Excel (.xlsx, .xls), CSV (.csv)"))) /\
  (forall config doc,
      UniversalParser.parse w (UniversalParser.registered w config) fp = Return doc ->
      document_type doc = PDF \/ document_type doc = EXCEL \/ document_type doc = CSV).
Proof.
  intros He. split; [|split].
  - intros doc. rewrite <- try_parsers_Some.
    unfold UniversalParser.parse. rewrite He. simpl.
    destruct (UniversalParser.try_parsers ps (path_resolve w fp)); split; congruence.
  - rewrite <- try_parsers_None.
    unfold UniversalParser.parse. rewrite He. simpl.
    destruct (UniversalParser.try_parsers ps (path_resolve w fp)); split; done.
  - intros config doc. apply registered_result_types.
Qed.

(** A [.docx] file with the PDF and Excel parsers registered, and a CSV
    file with two parsers that match and fail registered before the
    tabular parser. *)
Lemma C1_dispatch_in_order_then_unsupported_witness :
  UniversalParser.parse Demo.world Demo.parsers "notes.docx"
  = Raise (ValueError
      ("No parser available for file type: .docx" ++ Demo.LF
       ++ "Supported formats: PDF (.pdf), Excel (.xlsx, .xls), CSV (.csv)")) /\
  exists doc,
    UniversalParser.parse Demo.world
      [Demo2.refusing; PDFParser.make Demo.world Demo.config; Demo2.refusing;
       ExcelParser.make Demo.world Demo.config] "table.csv" = Return doc /\
    ExcelParser.parse Demo.world Demo.config "/data/table.csv" = Return doc /\
    document_type doc = CSV.
Proof.
  split.
  - destruct (C1_dispatch_in_order_then_unsupported Demo.world Demo.parsers
                "notes.docx" eq_refl) as (_ & Hnone & _).
    apply Hnone. repeat constructor; intros H; discriminate H.
  - eexists.
    destruct (C1_dispatch_in_order_then_unsupported Demo.world
                [Demo2.refusing; PDFParser.make Demo.world Demo.config; Demo2.refusing;
                 ExcelParser.make Demo.world Demo.config]
                "table.csv" eq_refl) as (Hfirst & _ & _).
    split; [|split; reflexivity].
    apply Hfirst.
    exists [Demo2.refusing; PDFParser.make Demo.world Demo.config; Demo2.refusing],
           (ExcelParser.make Demo.world Demo.config), [].
    split; [reflexivity|]. split; [|split; reflexivity].
    repeat constructor; intros H; first [exact I | discriminate H].
Defined.
